(** * Admin user management of the crates.io front end

    A shallow embedding of the admin routes, the profile controller and the
    user model, with the properties of the behavioural specification proved
    about it.

    Layout:
    - [Js]       the JavaScript values the code inspects: truthiness,
                 optional chaining, string to number conversion;
    - [DateFns]  the two date-fns functions the controller calls;
    - [App]      the world the application code runs in (tracked fields,
                 record cache, session, observable calls) and its monad;
    - [User], [Profile], [Routes]  the source files, one module each;
    - the theorems. *)

From Stdlib Require Import ZArith String Ascii List Bool Lia.
From stdpp Require Import gmap strings.
Import ListNotations.

Local Open Scope string_scope.
Local Open Scope Z_scope.

(* ===================================================================== *)
(** ** JavaScript values *)
(* ===================================================================== *)

Module Js.

(** A Number.  A finite double is written as the decimal [m * 10^e] it is
    equal to (every double has one); [StringToNumber] rounds to the nearest
    double and then writes it with [e = 0] when it is an integer. *)
Inductive Number :=
| NaN
| Inf (negative : bool)
| Fin (m e : Z).

(** The values that reach the code under study.  A [VDate] carries its time
    value in milliseconds since the epoch, [None] for an Invalid Date. *)
#[warnings="-register-all"]
Inductive Val :=
| VUndefined
| VNull
| VBool (b : bool)
| VNum (n : Number)
| VStr (s : string)
| VDate (t : option Z)
| VObj (fields : list (string * Val)).

Definition isNaN (n : Number) : bool :=
  match n with NaN => true | _ => false end.

(** ToBoolean: the falsy values are undefined, null, false, +0, -0, NaN and
    the empty string; every object (a Date included) is truthy. *)
Definition truthy (v : Val) : bool :=
  match v with
  | VUndefined | VNull => false
  | VBool b => b
  | VNum NaN => false
  | VNum (Inf _) => true
  | VNum (Fin m _) => negb (m =? 0)
  | VStr s => negb (String.eqb s "")
  | VDate _ | VObj _ => true
  end.

(** [!v] *)
Definition not (v : Val) : bool := negb (truthy v).

(** [a && b] returns [a] itself when it is falsy. *)
Definition and_then (a b : Val) : Val := if truthy a then b else a.

Fixpoint assoc (k : string) (l : list (string * Val)) : option Val :=
  match l with
  | [] => None
  | (k', v) :: r => if String.eqb k k' then Some v else assoc k r
  end.

(** [o?.k]: undefined when [o] is null or undefined, else the property
    (own properties only: primitives and dates have none of interest). *)
Definition opt_get (o : Val) (k : string) : Val :=
  match o with
  | VObj fields => match assoc k fields with Some v => v | None => VUndefined end
  | _ => VUndefined
  end.

(** *** StringToNumber (ECMAScript 7.1.4.1.1), on strings of code units
    below 256 *)

(** StrWhiteSpaceChar: TAB, LF, VT, FF, CR, SP and NBSP. *)
Definition is_white_space (c : ascii) : bool :=
  let n := nat_of_ascii c in
  existsb (Nat.eqb n) [9; 10; 11; 12; 13; 32; 160]%nat.

Fixpoint trim_start (s : string) : string :=
  match s with
  | String c r => if is_white_space c then trim_start r else s
  | EmptyString => EmptyString
  end.

Fixpoint trim_end (s : string) : string :=
  match s with
  | String c r =>
      match trim_end r with
      | EmptyString => if is_white_space c then EmptyString else String c EmptyString
      | r' => String c r'
      end
  | EmptyString => EmptyString
  end.

Definition trim (s : string) : string := trim_end (trim_start s).

(** The value of a digit in the given base, when it is one. *)
Definition digit_value (base : Z) (c : ascii) : option Z :=
  let n := Z.of_nat (nat_of_ascii c) in
  let d :=
    if (48 <=? n) && (n <=? 57) then Some (n - 48)
    else if (97 <=? n) && (n <=? 102) then Some (n - 87)
    else if (65 <=? n) && (n <=? 70) then Some (n - 55)
    else None in
  match d with
  | Some d => if d <? base then Some d else None
  | None => None
  end.

(** The longest prefix of digits, and what follows it. *)
Fixpoint read_digits (base : Z) (s : string) : list Z * string :=
  match s with
  | String c r =>
      match digit_value base c with
      | Some d => let (ds, rest) := read_digits base r in (d :: ds, rest)
      | None => ([], s)
      end
  | EmptyString => ([], EmptyString)
  end.

Definition digits_value (base : Z) (ds : list Z) : Z :=
  fold_left (fun acc d => acc * base + d) ds 0.

Definition is_nil {A} (l : list A) : bool :=
  match l with [] => true | _ => false end.

(** *** Rounding to binary64 *)

(** The floor of the binary logarithm of [n / d], for positive [n], [d]. *)
Definition log2_ratio (n d : Z) : Z :=
  let g := Z.log2 n - Z.log2 d in
  if 0 <=? g
  then if n <? d * 2 ^ g then g - 1 else g
  else if n * 2 ^ (- g) <? d then g - 1 else g.

(** The integer nearest to [n / d], a tie going to the even one. *)
Definition round_half_even (n d : Z) : Z :=
  let q := n / d in
  let r := n mod d in
  if 2 * r <? d then q
  else if d <? 2 * r then q + 1
  else if Z.even q then q else q + 1.

(** Halve [mant] while it is even, at most [fuel] times; what is left of
    the fuel comes back with it. *)
Fixpoint strip_twos (fuel : nat) (mant : Z) : Z * nat :=
  match fuel with
  | O => (mant, O)
  | S f => if Z.even mant then strip_twos f (mant / 2) else (mant, fuel)
  end.

(** The number [mant * 2^p] as a decimal: [2^-k] is [5^k * 10^-k]. *)
Definition dyadic (mant p : Z) : Number :=
  if mant =? 0 then Fin 0 0
  else if 0 <=? p then Fin (mant * 2 ^ p) 0
  else
    let (m, k) := strip_twos (Z.to_nat (- p)) mant in
    Fin (m * 5 ^ Z.of_nat k) (- Z.of_nat k).

(** The double nearest to [n / d] (both positive): 53 significant bits,
    no bit below [2^-1074], Infinity from [2^1024] on. *)
Definition nearest_double (n d : Z) : Number :=
  let p := Z.max (log2_ratio n d - 52) (- 1074) in
  let mant :=
    if p <? 0 then round_half_even (n * 2 ^ (- p)) d
    else round_half_even n (d * 2 ^ p) in
  if (0 <=? p) && (2 ^ 1024 <=? mant * 2 ^ p) then Inf false
  else dyadic mant p.

(** The Number of the decimal [m * 10^e], [m] not negative. *)
Definition of_decimal (m e : Z) : Number :=
  if m <=? 0 then Fin 0 0
  else if 0 <=? e then nearest_double (m * 10 ^ e) 1
  else nearest_double m (10 ^ (- e)).

(** A signed run of decimal digits that ends the string. *)
Definition signed_digits (s : string) : option Z :=
  let (neg, body) :=
    match s with
    | String "+" r => (false, r)
    | String "-" r => (true, r)
    | _ => (false, s)
    end in
  match read_digits 10 body with
  | ((_ :: _) as ds, EmptyString) =>
      Some (if neg then - digits_value 10 ds else digits_value 10 ds)
  | _ => None
  end.

(** ExponentPart, optional: what follows the mantissa up to the end. *)
Definition exponent_part (s : string) : option Z :=
  match s with
  | EmptyString => Some 0
  | String "e" r | String "E" r => signed_digits r
  | _ => None
  end.

(** StrUnsignedDecimalLiteral *)
Definition unsigned_decimal (s : string) : Number :=
  if String.eqb s "Infinity" then Inf false
  else
    let (ip, r1) := read_digits 10 s in
    match r1 with
    | String "." r2 =>
        let (fp, r3) := read_digits 10 r2 in
        if is_nil ip && is_nil fp then NaN
        else match exponent_part r3 with
             | Some x => of_decimal (digits_value 10 (ip ++ fp)) (x - Z.of_nat (length fp))
             | None => NaN
             end
    | _ =>
        if is_nil ip then NaN
        else match exponent_part r1 with
             | Some x => of_decimal (digits_value 10 ip) x
             | None => NaN
             end
    end.

Definition negate (n : Number) : Number :=
  match n with
  | NaN => NaN
  | Inf s => Inf (negb s)
  | Fin m e => Fin (- m) e
  end.

(** NonDecimalIntegerLiteral: digits in the base, at least one, to the end. *)
Definition non_decimal (base : Z) (s : string) : Number :=
  match read_digits base s with
  | ((_ :: _) as ds, EmptyString) => of_decimal (digits_value base ds) 0
  | _ => NaN
  end.

(** StrNumericLiteral *)
Definition numeric_literal (s : string) : Number :=
  match s with
  | String "0" (String "x" r) | String "0" (String "X" r) => non_decimal 16 r
  | String "0" (String "o" r) | String "0" (String "O" r) => non_decimal 8 r
  | String "0" (String "b" r) | String "0" (String "B" r) => non_decimal 2 r
  | String "+" r => unsigned_decimal r
  | String "-" r => negate (unsigned_decimal r)
  | _ => unsigned_decimal s
  end.

(** [Number(s)] for a string [s]: white space is trimmed at both ends, the
    empty string is 0, a numeric literal is the double nearest to its
    value, all else is NaN. *)
Definition StringToNumber (s : string) : Number :=
  match trim s with
  | EmptyString => Fin 0 0
  | t => numeric_literal t
  end.

(** Truncation towards zero of a finite number. *)
Definition truncate (m e : Z) : Z :=
  if 0 <=? e then m * 10 ^ e else Z.quot m (10 ^ (- e)).

(** The host's time zone: [LocalTime] takes a time value to the local
    time line, [UTC] takes a local time back. *)
Record Zone := { LocalTime : Z -> Z; UTC : Z -> Z }.

(** A zone whose clocks never change: always [offset] ms ahead of UTC. *)
Definition fixed_zone (offset : Z) : Zone :=
  {| LocalTime := fun t => t + offset; UTC := fun t => t - offset |}.

End Js.

(* ===================================================================== *)
(** ** date-fns *)
(* ===================================================================== *)

(** The library functions the profile controller imports, on time values
    in milliseconds since the epoch ([None] is an Invalid Date). *)
Module DateFns.
Import Js.

Definition msPerDay : Z := 86400000.
Definition maxTime : Z := 8640000000000000.

(** TimeClip: a time value out of range makes the date invalid. *)
Definition TimeClip (t : Z) : option Z :=
  if Z.abs t <=? maxTime then Some t else None.

(** [toDate]: a Date is cloned, a number is a time value, a string goes to
    the Date constructor ([parse] says how the host reads it; date-fns 2
    refuses strings, which is [parse] constantly [None]); anything else is
    an Invalid Date. *)
Definition toDate (parse : string -> option Z) (v : Val) : option Z :=
  match v with
  | VDate t => t
  | VNum (Fin m e) => TimeClip (truncate m e)
  | VStr s => parse s
  | _ => None
  end.

(** [isFuture(date)]: [+toDate(date) > Date.now()], false on Invalid Date. *)
Definition isFuture (parse : string -> option Z) (now : Z) (v : Val) : bool :=
  match toDate parse v with
  | Some t => now <? t
  | None => false
  end.

(** [addDays(date, amount)], as of date-fns 2: the amount loses its
    fraction ([toInteger]); zero days is the date itself; otherwise
    [date.setDate(date.getDate() + amount)]
    moves the date by whole days on the local time line (the same time of
    day, that many calendar days on), takes the result back to UTC and
    clips it. *)
Definition addDays (zone : Zone) (date : option Z) (amount : Number) : option Z :=
  match amount with
  | NaN | Inf _ => None
  | Fin m e =>
      let k := truncate m e in
      if k =? 0 then date
      else match date with
           | Some t => TimeClip (UTC zone (LocalTime zone t + k * msPerDay))
           | None => None
           end
  end.

End DateFns.

(* ===================================================================== *)
(** ** The application world *)
(* ===================================================================== *)

Module App.

(** What a request or a hook can throw. *)
Inductive Error :=
| HttpError (status : option Z)   (* utils/ajax: [error.response?.status] *)
| NotFoundError                   (* @ember-data/adapter/error *)
| ReferenceError (name : string)
| OtherError (message : string).

Inductive Completion (A : Type) :=
| Normal (a : A)
| Throw (e : Error).
Arguments Normal {A} a.
Arguments Throw {A} e.

#[warnings="-register-all"]
Inductive Json :=
| JNull
| JBool (b : bool)
| JString (s : string)
| JInstant (t : Z)                (* a date, as its ISO 8601 string *)
| JObject (fields : list (string * Json)).

Record Request := {
  url : string;
  method : string;
  body : option Json;
  headers : list (string * string)
}.

Record Transition := { targetName : string; sequence : nat }.

(** The options handed to the catch-all route; [None] is a key left out. *)
Record CatchAll := {
  ca_transition : Transition;
  ca_error : option Error;
  ca_title : string;
  ca_tryAgain : option bool;
  ca_loginNeeded : option bool
}.

(** The attributes of models/user.js.  [login] is only ever spliced into a
    URL and is kept as the string it is. *)
Record User := {
  email : Js.Val;
  email_verified : Js.Val;
  email_verification_sent : Js.Val;
  name : Js.Val;
  is_admin : Js.Val;
  login : string;
  avatar : Js.Val;
  url_ : Js.Val;
  kind : Js.Val;
  publish_notifications : Js.Val;
  lock : Js.Val
}.

(** A pushed resource: the attributes it carries, [None] for one it lacks. *)
Record Attrs := {
  a_email : option Js.Val;
  a_email_verified : option Js.Val;
  a_email_verification_sent : option Js.Val;
  a_name : option Js.Val;
  a_is_admin : option Js.Val;
  a_login : option string;
  a_avatar : option Js.Val;
  a_url : option Js.Val;
  a_kind : option Js.Val;
  a_publish_notifications : option Js.Val;
  a_lock : option Js.Val
}.

Record Resource := { r_id : string; r_attrs : Attrs }.

Definition no_attrs : Attrs :=
  {| a_email := None; a_email_verified := None;
     a_email_verification_sent := None; a_name := None; a_is_admin := None;
     a_login := None; a_avatar := None; a_url := None; a_kind := None;
     a_publish_notifications := None; a_lock := None |}.

(** A record no attribute of which was ever received. *)
Definition blank : User :=
  {| email := Js.VUndefined; email_verified := Js.VUndefined;
     email_verification_sent := Js.VUndefined; name := Js.VUndefined;
     is_admin := Js.VUndefined; login := ""; avatar := Js.VUndefined;
     url_ := Js.VUndefined; kind := Js.VUndefined;
     publish_notifications := Js.VUndefined; lock := Js.VUndefined |}.

Definition upd {A} (new : option A) (old : A) : A :=
  match new with Some v => v | None => old end.

(** Ember Data merges a pushed resource into the record it has: the
    attributes present replace the old ones, the others stay. *)
Definition merge (a : Attrs) (u : User) : User :=
  {| email := upd (a_email a) (email u);
     email_verified := upd (a_email_verified a) (email_verified u);
     email_verification_sent :=
       upd (a_email_verification_sent a) (email_verification_sent u);
     name := upd (a_name a) (name u);
     is_admin := upd (a_is_admin a) (is_admin u);
     login := upd (a_login a) (login u);
     avatar := upd (a_avatar a) (avatar u);
     url_ := upd (a_url a) (url_ u);
     kind := upd (a_kind a) (kind u);
     publish_notifications :=
       upd (a_publish_notifications a) (publish_notifications u);
     lock := upd (a_lock a) (lock u) |}.

Record CratePage := { entries : list Js.Val; meta_total : Js.Val }.

(** The calls on injected services and on the network, in order. *)
Inductive Event :=
| Ajax (req : Request)
| ApiAction (id : string) (verb : string) (path : option string) (data : option Json)
| StoreQuery (model : string) (params : list (string * Js.Val))
| StorePush (res : Resource)
| NotifySuccess (msg : string)
| NotifyError (msg : string)
| SentryCapture (e : Error)
| ConsoleError (e : Error)
| ReplaceWith (route : string) (args : CatchAll)
| BaseGuardRedirect (t : Transition).

(** Mutable state: the profile controller's tracked fields, the record its
    model refers to, the store's user records, the session. *)
Record World := {
  days : string;
  reason : string;
  model_user : string;
  store : gmap string User;
  authenticated : bool;
  isAdmin : bool;
  savedTransition : option Transition;
  log : list Event
}.

(** What the code cannot decide: the clock, the time zone, how the host
    reads a date string, and what the server answers.  A user endpoint answers with a
    user representation, held here in the form [store.normalize('user', _)]
    gives it. *)
Record Host := {
  clock : Z;
  zone : Js.Zone;
  date_parse : string -> option Z;
  user_endpoint : Request -> Completion Resource;
  crate_query : list (string * Js.Val) -> Completion CratePage;
  user_action : string -> string -> option string -> option Json -> Completion Js.Val
}.

Definition M (A : Type) : Type := Host -> World -> Completion A * World.

Definition ret {A} (a : A) : M A := fun _ w => (Normal a, w).

Definition bind {A B} (m : M A) (k : A -> M B) : M B :=
  fun h w =>
    match m h w with
    | (Normal a, w') => k a h w'
    | (Throw e, w') => (Throw e, w')
    end.

Definition throw {A} (e : Error) : M A := fun _ w => (Throw e, w).

(** [try { m } catch (e) { handler e }] *)
Definition try_catch {A} (m : M A) (handler : Error -> M A) : M A :=
  fun h w =>
    match m h w with
    | (Normal a, w') => (Normal a, w')
    | (Throw e, w') => handler e h w'
    end.

Definition read {A} (f : World -> A) : M A := fun _ w => (Normal (f w), w).
Definition ask {A} (f : Host -> A) : M A := fun h w => (Normal (f h), w).
Definition modify (f : World -> World) : M unit := fun _ w => (Normal tt, f w).

(** [await p]: the settled promise, resumed or thrown. *)
Definition await {A} (c : Completion A) : M A := fun _ w => (c, w).

Definition set_fields (d r : string) (w : World) : World :=
  {| days := d; reason := r; model_user := model_user w; store := store w;
     authenticated := authenticated w; isAdmin := isAdmin w;
     savedTransition := savedTransition w; log := log w |}.

Definition set_store (s : gmap string User) (w : World) : World :=
  {| days := days w; reason := reason w; model_user := model_user w;
     store := s; authenticated := authenticated w; isAdmin := isAdmin w;
     savedTransition := savedTransition w; log := log w |}.

Definition set_savedTransition (t : option Transition) (w : World) : World :=
  {| days := days w; reason := reason w; model_user := model_user w;
     store := store w; authenticated := authenticated w; isAdmin := isAdmin w;
     savedTransition := t; log := log w |}.

Definition set_log (l : list Event) (w : World) : World :=
  {| days := days w; reason := reason w; model_user := model_user w;
     store := store w; authenticated := authenticated w; isAdmin := isAdmin w;
     savedTransition := savedTransition w; log := l |}.

Definition emit (e : Event) : M unit :=
  modify (fun w => set_log (log w ++ [e]) w).

End App.

Declare Scope app_scope.
Delimit Scope app_scope with app.
Notation "x <- m ;; k" := (App.bind m (fun x => k))
  (at level 100, m at next level, right associativity) : app_scope.
Notation "m ;; k" := (App.bind m (fun _ => k))
  (at level 100, right associativity) : app_scope.

Local Open Scope app_scope.

(* ===================================================================== *)
(** ** Injected services *)
(* ===================================================================== *)

Module Services.
Import App.

(** [utils/ajax]: one request, answered by the server. *)
Definition ajax (req : Request) : M Resource :=
  emit (Ajax req);;
  answer <- ask (fun h => user_endpoint h req);;
  await answer.

(** [store.push] and [store.pushPayload] of one user resource: merged into
    the record of that id, which is created when the store has none.
    Returns the record (its id). *)
Definition store_push (res : Resource) : M string :=
  emit (StorePush res);;
  modify (fun w =>
    set_store (<[r_id res := merge (r_attrs res) (default blank (store w !! r_id res))]> (store w)) w);;
  ret (r_id res).

(** [store.normalize('user', response)]: the store's reading of a user
    representation.  The store is an injected service; [faults] says which
    representations it cannot take, and what it throws on them. *)
Definition store_normalize (faults : Resource -> option Error)
    (model : string) (response : Resource) : M Resource :=
  match faults response with
  | Some e => throw e
  | None => ret response
  end.

(** A store that takes every representation. *)
Definition takes_all : Resource -> option Error := fun _ => None.

(** [store.query(model, params)] *)
Definition store_query (model : string) (params : list (string * Js.Val)) : M CratePage :=
  emit (StoreQuery model params);;
  answer <- ask (fun h => crate_query h params);;
  await answer.

(** [router.replaceWith('catch-all', args)] *)
Definition replaceWith (route : string) (args : CatchAll) : M unit :=
  emit (ReplaceWith route args).

Definition notifications_success (msg : string) : M unit := emit (NotifySuccess msg).
Definition notifications_error (msg : string) : M unit := emit (NotifyError msg).
Definition sentry_captureException (e : Error) : M unit := emit (SentryCapture e).
Definition console_error (e : Error) : M unit := emit (ConsoleError e).

(** Reading an identifier that no enclosing scope declares. *)
Definition undeclared {A} (x : string) : M A := throw (ReferenceError x).

End Services.

(* ===================================================================== *)
(** ** app/models/user.js *)
(* ===================================================================== *)

Module UserModel.
Import App Services.

(** [apiAction(this, { method, path, data })] *)
Definition apiAction (self verb : string) (path : option string) (data : option Json) : M Js.Val :=
  emit (ApiAction self verb path data);;
  answer <- ask (fun h => user_action h self verb path data);;
  await answer.

Definition stats (self : string) : M Js.Val :=
  apiAction self "GET" (Some "stats") None.

Definition changeEmail (self : string) (email : string) : M unit :=
  apiAction self "PUT" None
    (Some (JObject [("user", JObject [("email", JString email)])]));;
  store_push
    {| r_id := self;
       r_attrs :=
         {| a_email := Some (Js.VStr email);
            a_email_verified := Some (Js.VBool false);
            a_email_verification_sent := Some (Js.VBool true);
            a_name := None; a_is_admin := None; a_login := None;
            a_avatar := None; a_url := None; a_kind := None;
            a_publish_notifications := None; a_lock := None |} |};;
  ret tt.

Definition updatePublishNotifications (self : string) (enabled : bool) : M unit :=
  apiAction self "PUT" None
    (Some (JObject [("user", JObject [("publish_notifications", JBool enabled)])]));;
  store_push
    {| r_id := self;
       r_attrs :=
         {| a_email := None; a_email_verified := None;
            a_email_verification_sent := None;
            a_name := None; a_is_admin := None; a_login := None;
            a_avatar := None; a_url := None; a_kind := None;
            a_publish_notifications := Some (Js.VBool enabled);
            a_lock := None |} |};;
  ret tt.

Definition resendVerificationEmail (self : string) : M Js.Val :=
  apiAction self "PUT" (Some "resend") None.

End UserModel.

(* ===================================================================== *)
(** ** app/controllers/admin/user/profile.js *)
(* ===================================================================== *)

Module Profile.
Import App Services.

Definition default_days : string := "7".
Definition default_reason : string := "Please contact help@crates.io.".

Definition reset : M unit :=
  modify (set_fields default_days default_reason).

(** [this.model.user]: the store's record, shared with whoever pushes. *)
Definition model_user_record (w : World) : User :=
  default blank (store w !! model_user w).

(** [this.model.user.lock?.reason] *)
Definition lockReason (w : World) : Js.Val :=
  Js.opt_get (lock (model_user_record w)) "reason".

(** [this.model.user.lock?.until] *)
Definition lockedUntil (w : World) : Js.Val :=
  Js.opt_get (lock (model_user_record w)) "until".

Definition isCurrentlyLocked (h : Host) (w : World) : bool :=
  if Js.not (lockReason w) then false
  else
    let until := lockedUntil w in
    if Js.not until then true
    else DateFns.isFuture (date_parse h) (clock h) until.

Definition wasPreviouslyLocked (h : Host) (w : World) : Js.Val :=
  Js.and_then (lockReason w) (Js.VBool (negb (isCurrentlyLocked h w))).

(** [updateDays(event)], with [event.target.value] *)
Definition updateDays (value : string) : M unit :=
  modify (fun w => set_fields value (reason w) w).

Record Payload := { p_reason : string; p_until : Js.Val }.

Definition asPayload (h : Host) (w : World) : Payload :=
  let reason := reason w in
  let days := Js.StringToNumber (days w) in        (* new Number(days) *)
  let until :=
    if negb (Js.isNaN days)
    then Js.VDate (DateFns.addDays (zone h) (Some (clock h)) days)   (* new Date() *)
    else Js.VNull in
  {| p_reason := reason; p_until := until |}.

(** [JSON.stringify] of a payload: a valid date is its ISO string, an
    invalid one and null are null. *)
Definition JSON_stringify (p : Payload) : Json :=
  JObject [("reason", JString (p_reason p));
           ("until", match p_until p with
                     | Js.VDate (Some t) => JInstant t
                     | _ => JNull
                     end)].

Definition lock_url (w : World) : string :=
  "/api/v1/users/" ++ login (model_user_record w) ++ "/lock".

(** The lock task, for a store with the given [faults]. *)
Definition lockTaskWith (faults : Resource -> option Error) : M unit :=
  try_catch
    (url <- read lock_url;;
     payload <- (fun h w => (Normal (asPayload h w), w));;
     user <- ajax {| url := url; method := "PUT";
                     body := Some (JSON_stringify payload);
                     headers := [("Content-Type", "application/json")] |};;
     notifications_success "User account locked";;
     reset;;
     doc <- store_normalize faults "user" user;;
     store_push doc;;
     ret tt)
    (fun e =>
       notifications_error "An error occurred while locking the account.";;
       sentry_captureException e;;
       console_error e).

(** The unlock task, for a store with the given [faults]. *)
Definition unlockTaskWith (faults : Resource -> option Error) : M unit :=
  try_catch
    (url <- read lock_url;;
     user <- ajax {| url := url; method := "DELETE"; body := None; headers := [] |};;
     notifications_success "User account unlocked";;
     reset;;
     doc <- store_normalize faults "user" user;;
     store_push doc;;
     ret tt)
    (fun e =>
       notifications_error "An error occurred while unlocking the account.";;
       sentry_captureException e;;
       console_error e).

(** The tasks with a store that takes whatever the server returns. *)
Definition lockTask : M unit := lockTaskWith takes_all.
Definition unlockTask : M unit := unlockTaskWith takes_all.

End Profile.

(* ===================================================================== *)
(** ** The routes *)
(* ===================================================================== *)

(** app/routes/-authenticated-route.js *)
Module AuthenticatedRoute.
Import App Services.

(** Modelled from the spec: the base route ./-authenticated-route is not
    among the sources.  An authenticated session passes; for any other the
    base guard issues a redirect of its own. *)
Definition beforeModel (transition : Transition) : M unit :=
  ok <- read authenticated;;
  if ok then ret tt else emit (BaseGuardRedirect transition).

End AuthenticatedRoute.

(** The admin route (unnamed/part_001) *)
Module AdminRoute.
Import App Services.

Definition beforeModel (transition : Transition) : M unit :=
  AuthenticatedRoute.beforeModel transition;;
  admin <- read isAdmin;;
  if negb admin then
    modify (set_savedTransition (Some transition));;
    replaceWith "catch-all"
      {| ca_transition := transition;
         ca_error := None;
         ca_title := "This page requires authentication";
         ca_tryAgain := None;
         ca_loginNeeded := Some true |}
  else ret tt.

End AdminRoute.

(** The admin.user route (unnamed/part_000) *)
Module AdminUserRoute.
Import App Services.

(** [error instanceof HttpError && error.response?.status === 404] *)
Definition is_http_404 (error : Error) : bool :=
  match error with
  | HttpError (Some status) => status =? 404
  | _ => false
  end.

(** Resolves to [{ user }], or to undefined after a redirect; for a store
    with the given [faults]. *)
Definition modelWith (faults : Resource -> option Error)
    (user_id : string) (transition : Transition) : M (option string) :=
  try_catch
    (response <- ajax {| url := "/api/v1/users/" ++ user_id ++ "/admin";
                         method := "GET"; body := None; headers := [] |};;
     doc <- store_normalize faults "user" response;;
     user <- store_push doc;;
     ret (Some user))
    (fun error =>
       if is_http_404 error then
         replaceWith "catch-all"
           {| ca_transition := transition;
              ca_error := Some error;
              ca_title := user_id ++ ": User not found";
              ca_tryAgain := None;
              ca_loginNeeded := None |};;
         ret None
       else
         replaceWith "catch-all"
           {| ca_transition := transition;
              ca_error := Some error;
              ca_title := user_id ++ ": Failed to load user data";
              ca_tryAgain := Some true;
              ca_loginNeeded := None |};;
         ret None).

(** The hook with a store that takes whatever the server returns. *)
Definition model : string -> Transition -> M (option string) :=
  modelWith takes_all.

End AdminUserRoute.

(** app/routes/admin/user/crates.js *)
Module AdminUserCratesRoute.
Import App Services.

(** [params.k = v] *)
Fixpoint set_param (k : string) (v : Js.Val) (params : list (string * Js.Val))
  : list (string * Js.Val) :=
  match params with
  | [] => [(k, v)]
  | (k', v') :: r =>
      if String.eqb k k' then (k, v) :: r else (k', v') :: set_param k v r
  end.

(** [error instanceof NotFoundError] *)
Definition is_not_found (error : Error) : bool :=
  match error with
  | NotFoundError => true
  | _ => false
  end.

(** The bindings of [model] are [params], [transition], [user], [crates],
    [error] and [title]; the module imports [Route], [service] and
    [NotFoundError].  The handler's [user_id] is none of them. *)
Definition model (params : list (string * Js.Val)) (transition : Transition)
  : M (option (CratePage * string)) :=
  user <- read model_user;;                        (* modelFor('admin.user') *)
  try_catch
    (let params := set_param "user_id" (Js.VStr user) params in
     let params := set_param "include_yanked" (Js.VStr "yes") params in
     crates <- store_query "crate" params;;
     ret (Some (crates, user)))
    (fun error =>
       if is_not_found error then
         user_id <- undeclared "user_id";;
         let title := user_id ++ ": User not found" in
         replaceWith "catch-all"
           {| ca_transition := transition;
              ca_error := Some error;
              ca_title := title;
              ca_tryAgain := None;
              ca_loginNeeded := None |};;
         ret None
       else
         user_id <- undeclared "user_id";;
         let title := user_id ++ ": Failed to load user data" in
         replaceWith "catch-all"
           {| ca_transition := transition;
              ca_error := Some error;
              ca_title := title;
              ca_tryAgain := Some true;
              ca_loginNeeded := None |};;
         ret None).

End AdminUserCratesRoute.

(** Entering admin.user.  The router resolves a transition parent route
    first, each route's [beforeModel] before its [model]; a [replaceWith]
    issued by a hook aborts the transition, and no later hook runs. *)
Module Navigation.
Import App Services.

Definition is_redirect (e : Event) : bool :=
  match e with
  | ReplaceWith _ _ | BaseGuardRedirect _ => true
  | _ => false
  end.

Definition is_fetch (e : Event) : bool :=
  match e with
  | Ajax _ | StoreQuery _ _ | ApiAction _ _ _ _ => true
  | _ => false
  end.

(** Run a hook, then the rest unless the hook redirected. *)
Definition hook_then {A} (hook : M unit) (rest : M (option A)) : M (option A) :=
  fun h w =>
    match hook h w with
    | (Normal _, w') =>
        if existsb is_redirect (skipn (length (log w)) (log w'))
        then (Normal None, w')
        else rest h w'
    | (Throw e, w') => (Throw e, w')
    end.

Definition enter_admin_user (user_id : string) (transition : Transition)
  : M (option string) :=
  hook_then (AdminRoute.beforeModel transition)
            (AdminUserRoute.model user_id transition).

End Navigation.

(* ===================================================================== *)
(** ** Sample data and predicates of the statements *)
(* ===================================================================== *)

Module Sample.
Import App.

Definition ghost : Error := HttpError (Some 404).

(** The record a healthy server keeps for user 42. *)
Definition user (lock : Js.Val) : User :=
  {| email := Js.VStr "kate@example.org"; email_verified := Js.VBool true;
     email_verification_sent := Js.VBool true; name := Js.VStr "Kate";
     is_admin := Js.VBool false; login := "kate"; avatar := Js.VNull;
     url_ := Js.VStr "https://github.com/kate"; kind := Js.VStr "user";
     publish_notifications := Js.VBool true; lock := lock |}.

Definition locked (reason : string) (until : Js.Val) : Js.Val :=
  Js.VObj [("reason", Js.VStr reason); ("until", until)].

Definition resource (lock : Js.Val) : Resource :=
  {| r_id := "42";
     r_attrs :=
       {| a_email := Some (Js.VStr "kate@example.org");
          a_email_verified := Some (Js.VBool true);
          a_email_verification_sent := Some (Js.VBool true);
          a_name := Some (Js.VStr "Kate");
          a_is_admin := Some (Js.VBool false);
          a_login := Some "kate";
          a_avatar := Some Js.VNull;
          a_url := Some (Js.VStr "https://github.com/kate");
          a_kind := Some (Js.VStr "user");
          a_publish_notifications := Some (Js.VBool true);
          a_lock := Some lock |} |}.

(** A host whose server answers every user request with [answer]. *)
Definition host (now : Z) (answer : Completion Resource) : Host :=
  {| clock := now;
     zone := Js.fixed_zone 0;
     date_parse := fun _ => None;
     user_endpoint := fun _ => answer;
     crate_query := fun _ => Throw NotFoundError;
     user_action := fun _ _ _ _ => Normal Js.VUndefined |}.

Definition world (d r : string) (lock : Js.Val) (admin : bool) : World :=
  {| days := d; reason := r; model_user := "42";
     store := {[ "42" := user lock ]};
     authenticated := true; isAdmin := admin;
     savedTransition := None; log := [] |}.

Definition visit : Transition := {| targetName := "admin.user.profile"; sequence := 1 |}.

End Sample.

(** A string of white space only (the empty string is one). *)
Fixpoint all_white_space (s : string) : bool :=
  match s with
  | String c r => Js.is_white_space c && all_white_space r
  | EmptyString => true
  end.

Definition has_until (w : App.World) : bool := Js.truthy (Profile.lockedUntil w).

(** The lock request as [lockTask] builds it, and the unlock request. *)
Definition lock_request (h : App.Host) (w : App.World) : App.Request :=
  {| App.url := Profile.lock_url w;
     App.method := "PUT";
     App.body := Some (Profile.JSON_stringify (Profile.asPayload h w));
     App.headers := [("Content-Type", "application/json")] |}.

Definition unlock_request (w : App.World) : App.Request :=
  {| App.url := Profile.lock_url w;
     App.method := "DELETE";
     App.body := None;
     App.headers := [] |}.

(** The tracked fields and the user cache, which an action may change. *)
Definition ui_state (w : App.World) : string * string * gmap string App.User :=
  (App.days w, App.reason w, App.store w).

(** The requests of the routes and of the user model. *)
Definition admin_request (user_id : string) : App.Request :=
  {| App.url := "/api/v1/users/" ++ user_id ++ "/admin";
     App.method := "GET"; App.body := None; App.headers := [] |}.

Definition crates_params (user : string) (params : list (string * Js.Val))
  : list (string * Js.Val) :=
  AdminUserCratesRoute.set_param "include_yanked" (Js.VStr "yes")
    (AdminUserCratesRoute.set_param "user_id" (Js.VStr user) params).

Definition email_data (email : string) : App.Json :=
  App.JObject [("user", App.JObject [("email", App.JString email)])].

Definition notifications_data (enabled : bool) : App.Json :=
  App.JObject [("user", App.JObject [("publish_notifications", App.JBool enabled)])].

(** The record of [self] as the store holds it. *)
Definition record (self : string) (w : App.World) : App.User :=
  default App.blank (App.store w !! self).

(** The error view as the single-user lookup asks for it. *)
Definition lookup_failure_view (user_id : string) (t : App.Transition)
    (e : App.Error) (not_found : bool) : App.CatchAll :=
  {| App.ca_transition := t;
     App.ca_error := Some e;
     App.ca_title :=
       if not_found then user_id ++ ": User not found"
       else user_id ++ ": Failed to load user data";
     App.ca_tryAgain := if not_found then None else Some true;
     App.ca_loginNeeded := None |}.

Definition login_needed_view (t : App.Transition) : App.CatchAll :=
  {| App.ca_transition := t;
     App.ca_error := None;
     App.ca_title := "This page requires authentication";
     App.ca_tryAgain := None;
     App.ca_loginNeeded := Some true |}.

(* ===================================================================== *)
(** ** The crates controller, and further predicates *)
(* ===================================================================== *)

(** app/controllers/admin/user/crates.js *)
Module AdminUserCratesController.
Import App.

Definition queryParams : list string := ["page"; "per_page"].
Definition page : Js.Val := Js.VStr "1".
Definition per_page : Js.Val := Js.VNum (Js.Fin 10 0).

(** [a ?? b]: [b] only when [a] is null or undefined. *)
Definition coalesce (a b : Js.Val) : Js.Val :=
  match a with
  | Js.VUndefined | Js.VNull => b
  | _ => a
  end.

(** [this.model.crates.meta.total ?? 0] *)
Definition totalItems (crates : CratePage) : Js.Val :=
  coalesce (meta_total crates) (Js.VNum (Js.Fin 0 0)).

End AdminUserCratesController.

Module Fixtures.
Import App.

(** A host whose server rejects everything with [e]. *)
Definition failing (now : Z) (e : Error) : Host :=
  {| clock := now;
     zone := Js.fixed_zone 0;
     date_parse := fun _ => None;
     user_endpoint := fun _ => Throw e;
     crate_query := fun _ => Throw e;
     user_action := fun _ _ _ _ => Throw e |}.

(** A host whose server answers the crates query with [page]. *)
Definition listing (now : Z) (page : CratePage) : Host :=
  {| clock := now;
     zone := Js.fixed_zone 0;
     date_parse := fun _ => None;
     user_endpoint := fun _ => Throw NotFoundError;
     crate_query := fun _ => Normal page;
     user_action := fun _ _ _ _ => Normal Js.VUndefined |}.

Definition two_crates : CratePage :=
  {| entries := [Js.VStr "serde"; Js.VStr "rand"];
     meta_total := Js.VNum (Js.Fin 2 0) |}.

Definition anonymous (w : World) : World :=
  {| days := days w; reason := reason w; model_user := model_user w;
     store := store w; authenticated := false; isAdmin := false;
     savedTransition := savedTransition w; log := log w |}.

(** Days from 1970-01-01 to a date of the Gregorian calendar. *)
Definition days_from_civil (y m d : Z) : Z :=
  let y := if m <=? 2 then y - 1 else y in
  let era := y / 400 in
  let yoe := y - era * 400 in
  let doy := (153 * ((m + 9) mod 12) + 2) / 5 + d - 1 in
  era * 146097 + (yoe * 365 + yoe / 4 - yoe / 100 + doy) - 719468.

Definition number_of (cs : list ascii) : option Z :=
  match Js.read_digits 10 (string_of_list_ascii cs) with
  | ((_ :: _) as ds, EmptyString) => Some (Js.digits_value 10 ds)
  | _ => None
  end.

(** The instant of a timestamp as the server writes them,
    YYYY-MM-DDTHH:mm:ssZ; any other text is not read. *)
Definition utc_timestamp (s : string) : option Z :=
  match list_ascii_of_string s with
  | [y1; y2; y3; y4; s1; m1; m2; s2; d1; d2; s3; h1; h2; s4; n1; n2; s5; c1; c2; z] =>
      if String.eqb (string_of_list_ascii [s1; s2; s3; s4; s5; z]) "--T::Z" then
        match number_of [y1; y2; y3; y4], number_of [m1; m2], number_of [d1; d2],
              number_of [h1; h2], number_of [n1; n2], number_of [c1; c2] with
        | Some y, Some m, Some d, Some hh, Some mm, Some ss =>
            if (1 <=? m) && (m <=? 12) && (1 <=? d) && (d <=? 31)
               && (hh <=? 23) && (mm <=? 59) && (ss <=? 59)
            then Some (days_from_civil y m d * 86400000
                       + hh * 3600000 + mm * 60000 + ss * 1000)
            else None
        | _, _, _, _, _, _ => None
        end
      else None
  | _ => None
  end.

(** New York in 2024: five hours behind UTC, four while the clocks are
    forward (from 10 March 07:00 UTC to 3 November 06:00 UTC). *)
Definition new_york_2024 : Js.Zone :=
  {| Js.LocalTime := fun t =>
       if (1710054000000 <=? t) && (t <? 1730613600000)
       then t - 14400000 else t - 18000000;
     Js.UTC := fun t =>
       if (1710054000000 - 18000000 <=? t) && (t <? 1730613600000 - 14400000)
       then t + 14400000 else t + 18000000 |}.

(** A host in the given zone that reads the server's timestamps. *)
Definition reading (now : Z) (z : Js.Zone) (answer : Completion Resource) : Host :=
  {| clock := now;
     zone := z;
     date_parse := utc_timestamp;
     user_endpoint := fun _ => answer;
     crate_query := fun _ => Throw NotFoundError;
     user_action := fun _ _ _ _ => Normal Js.VUndefined |}.

(** A store that takes no representation. *)
Definition refusing (e : Error) : Resource -> option Error := fun _ => Some e.

End Fixtures.

(** A zone is steady when moving a time by [d] on the local time line
    moves it by [d] on the UTC line to within a day: clocks may change,
    by less than a day. *)
Definition steady (z : Js.Zone) : Prop :=
  forall t d, Z.abs (Js.UTC z (Js.LocalTime z t + d) - (t + d)) < 86400000.

(** What a run added to the log. *)
Definition new_events (w w' : App.World) : list App.Event :=
  skipn (length (App.log w)) (App.log w').

(** The session and the model reference, which no action touches. *)
Definition session_state (w : App.World)
  : bool * bool * option App.Transition * string :=
  (App.authenticated w, App.isAdmin w, App.savedTransition w, App.model_user w).

(** The same world with other text in the days field. *)
Definition with_days (d : string) (w : App.World) : App.World :=
  App.set_fields d (App.reason w) w.

Definition is_finite (n : Js.Number) : bool :=
  match n with
  | Js.Fin _ _ => true
  | _ => false
  end.

(** Decimal digits and the text they make. *)
Definition is_digit (d : Z) : Prop := 0 <= d < 10.

Definition digit_char (d : Z) : ascii := ascii_of_nat (48 + Z.to_nat d).

Fixpoint digits_string (ds : list Z) : string :=
  match ds with
  | [] => EmptyString
  | d :: r => String (digit_char d) (digits_string r)
  end.

(* ===================================================================== *)
(** ** Conversions *)
(* ===================================================================== *)

Example number_7 : Js.StringToNumber "7" = Js.Fin 7 0.
Proof. reflexivity. Qed.

Example number_abc : Js.StringToNumber "abc" = Js.NaN.
Proof. reflexivity. Qed.

Example number_fraction : Js.StringToNumber " -12.50e1 " = Js.Fin (-125) 0.
Proof. vm_compute. reflexivity. Qed.

Example number_hex : Js.StringToNumber "0x1F" = Js.Fin 31 0.
Proof. reflexivity. Qed.

Example number_trailing : Js.StringToNumber "7 days" = Js.NaN.
Proof. reflexivity. Qed.

Example number_infinity : Js.StringToNumber "-Infinity" = Js.Inf true.
Proof. reflexivity. Qed.

Lemma trim_start_blank (s : string) :
  all_white_space s = true -> Js.trim_start s = EmptyString.
Proof.
  induction s as [|c r IH]; simpl; [reflexivity|].
  destruct (Js.is_white_space c); simpl; [exact IH | discriminate].
Qed.

Lemma StringToNumber_blank (s : string) :
  all_white_space s = true -> Js.StringToNumber s = Js.Fin 0 0.
Proof.
  intros Hs. unfold Js.StringToNumber, Js.trim.
  rewrite (trim_start_blank s Hs). reflexivity.
Qed.

Lemma isFuture_iff (parse : string -> option Z) (now : Z) (v : Js.Val) :
  DateFns.isFuture parse now v = true <->
  exists t, DateFns.toDate parse v = Some t /\ now < t.
Proof.
  unfold DateFns.isFuture.
  destruct (DateFns.toDate parse v) as [t|]; split.
  - intros Hlt. exists t. split; [reflexivity | now apply Z.ltb_lt].
  - intros (t' & Heq & Hlt). injection Heq as ->. now apply Z.ltb_lt.
  - discriminate.
  - intros (t' & Heq & _). discriminate.
Qed.

(* ===================================================================== *)
(** ** Lock state of the fetched user *)
(* ===================================================================== *)

Section LockState.
Import App Profile.

Example locked_indefinitely :
  isCurrentlyLocked (Sample.host 1000 (Throw Sample.ghost))
    (Sample.world "7" "" (Sample.locked "spam" Js.VNull) true) = true.
Proof. reflexivity. Qed.

Example locked_until_later :
  isCurrentlyLocked (Sample.host 1000 (Throw Sample.ghost))
    (Sample.world "7" "" (Sample.locked "spam" (Js.VDate (Some 1001))) true) = true.
Proof. reflexivity. Qed.

Example lock_expires_on_the_dot :
  isCurrentlyLocked (Sample.host 1000 (Throw Sample.ghost))
    (Sample.world "7" "" (Sample.locked "spam" (Js.VDate (Some 1000))) true) = false.
Proof. reflexivity. Qed.

Example never_locked :
  isCurrentlyLocked (Sample.host 1000 (Throw Sample.ghost))
    (Sample.world "7" "" Js.VNull true) = false
  /\ wasPreviouslyLocked (Sample.host 1000 (Throw Sample.ghost))
       (Sample.world "7" "" Js.VNull true) = Js.VUndefined.
Proof. split; reflexivity. Qed.

Example locked_until_a_timestamp :
  isCurrentlyLocked
    (Fixtures.reading 1709985600000 (Js.fixed_zone 0) (Throw Sample.ghost))
    (Sample.world "7" "" (Sample.locked "spam" (Js.VStr "2024-03-10T11:00:00Z")) true)
  = true
  /\ isCurrentlyLocked
       (Fixtures.reading 1710068400000 (Js.fixed_zone 0) (Throw Sample.ghost))
       (Sample.world "7" "" (Sample.locked "spam" (Js.VStr "2024-03-10T11:00:00Z")) true)
     = false.
Proof. split; vm_compute; reflexivity. Qed.

(** A text until that the host does not read as a date makes no lock. *)
Lemma unread_until_is_not_locked (h : Host) (w : World) (u : User)
    (fields : list (string * Js.Val)) (text s : string) :
  store w !! model_user w = Some u ->
  lock u = Js.VObj fields ->
  Js.assoc "reason" fields = Some (Js.VStr text) ->
  Js.assoc "until" fields = Some (Js.VStr s) ->
  s <> "" ->
  date_parse h s = None ->
  isCurrentlyLocked h w = false.
Proof.
  intros Hu Hlock Hreason Huntil Hs Hparse.
  unfold isCurrentlyLocked, lockReason, lockedUntil, model_user_record.
  rewrite Hu. change (default blank (Some u)) with u.
  rewrite Hlock. unfold Js.opt_get.
  rewrite Hreason, Huntil.
  destruct (Js.not (Js.VStr text)); [reflexivity|].
  assert (Hs' : Js.not (Js.VStr s) = false).
  { unfold Js.not, Js.truthy. rewrite negb_involutive.
    apply String.eqb_neq. exact Hs. }
  rewrite Hs'. unfold DateFns.isFuture, DateFns.toDate.
  rewrite Hparse. reflexivity.
Qed.




End LockState.

(* ===================================================================== *)
(** ** The lock payload *)
(* ===================================================================== *)

Section Payload.
Import App Profile.

Example payload_3_days :
  asPayload (Sample.host 1000 (Throw Sample.ghost))
    (Sample.world "3" "spam" Js.VNull true)
  = {| p_reason := "spam"; p_until := Js.VDate (Some 259201000) |}.
Proof. vm_compute. reflexivity. Qed.

Example payload_fraction_of_a_day :
  p_until (asPayload (Sample.host 1000 (Throw Sample.ghost))
    (Sample.world "1.5" "spam" Js.VNull true))
  = Js.VDate (Some 86401000).
Proof. vm_compute. reflexivity. Qed.

Example payload_rounds_to_a_day :
  p_until (asPayload (Sample.host 1000 (Throw Sample.ghost))
    (Sample.world "0.9999999999999999999" "spam" Js.VNull true))
  = Js.VDate (Some 86401000).
Proof. vm_compute. reflexivity. Qed.

Example payload_infinite_days :
  p_until (asPayload (Sample.host 1000 (Throw Sample.ghost))
    (Sample.world "Infinity" "spam" Js.VNull true))
  = Js.VDate None.
Proof. vm_compute. reflexivity. Qed.

(** One day from 9 March 2024, noon UTC, in New York: the clocks go
    forward in between, and the same local time is 23 hours away. *)
Example payload_across_a_clock_change :
  p_until (asPayload
    (Fixtures.reading 1709985600000 Fixtures.new_york_2024 (Throw Sample.ghost))
    (Sample.world "1" "spam" Js.VNull true))
  = Js.VDate (Some (1709985600000 + 23 * 3600000)).
Proof. vm_compute. reflexivity. Qed.

Lemma fixed_zone_round_trip (offset t d : Z) :
  Js.UTC (Js.fixed_zone offset) (Js.LocalTime (Js.fixed_zone offset) t + d) = t + d.
Proof. unfold Js.fixed_zone. cbn [Js.UTC Js.LocalTime]. lia. Qed.

Lemma until_of_number (h : Host) (w : World) (m e : Z) :
  Js.StringToNumber (days w) = Js.Fin m e ->
  p_until (asPayload h w) =
  Js.VDate
    (if Js.truncate m e =? 0 then Some (clock h)
     else if Z.abs (Js.UTC (zone h)
                      (Js.LocalTime (zone h) (clock h)
                       + Js.truncate m e * 86400000)) <=? 8640000000000000
          then Some (Js.UTC (zone h)
                       (Js.LocalTime (zone h) (clock h)
                        + Js.truncate m e * 86400000))
          else None).
Proof.
  intros Hnum. unfold asPayload. cbn [p_until]. rewrite Hnum.
  cbn [Js.isNaN negb]. unfold DateFns.addDays, DateFns.TimeClip.
  reflexivity.
Qed.

(** C3, as it was stated, fails: 100000000 and Infinity convert to valid
    numbers, yet until is an Invalid Date, not the current time plus that
    many days. *)
Lemma asPayload_until_counterexample :
  Js.StringToNumber "100000000" = Js.Fin 100000000 0 /\
  p_until (asPayload (Sample.host 1000 (Throw Sample.ghost))
             (Sample.world "100000000" "spam" Js.VNull true))
    <> Js.VDate (Some (1000 + 100000000 * 86400000)) /\
  p_until (asPayload (Sample.host 1000 (Throw Sample.ghost))
             (Sample.world "100000000" "spam" Js.VNull true))
    = Js.VDate None /\
  Js.isNaN (Js.StringToNumber "Infinity") = false /\
  p_until (asPayload (Sample.host 1000 (Throw Sample.ghost))
             (Sample.world "Infinity" "spam" Js.VNull true))
    = Js.VDate None.
Proof. vm_compute. repeat split; discriminate. Qed.

(** C3, amended. [asPayload()] passes the reason through.  Its until is
    null when the days text converts to NaN ("abc"); an Invalid Date when
    it converts to an infinity; and, when it converts to a finite number,
    the current time itself for less than one whole day, else the same
    local time that many whole days on (the fraction is dropped), which
    is an Invalid Date when out of the range of dates.  Where the clocks
    do not change, "7" gives the current time plus 604 800 000 ms and
    "1.5" the current time plus 86 400 000 ms. *)
Theorem asPayload_until (h : Host) (w : World) :
  p_reason (asPayload h w) = reason w /\
  (Js.StringToNumber (days w) = Js.NaN ->
     p_until (asPayload h w) = Js.VNull) /\
  (forall sign, Js.StringToNumber (days w) = Js.Inf sign ->
     p_until (asPayload h w) = Js.VDate None) /\
  (forall m e, Js.StringToNumber (days w) = Js.Fin m e ->
     p_until (asPayload h w) =
     Js.VDate
       (if Js.truncate m e =? 0 then Some (clock h)
        else if Z.abs (Js.UTC (zone h)
                         (Js.LocalTime (zone h) (clock h)
                          + Js.truncate m e * 86400000)) <=? 8640000000000000
             then Some (Js.UTC (zone h)
                          (Js.LocalTime (zone h) (clock h)
                           + Js.truncate m e * 86400000))
             else None)) /\
  (days w = "abc" -> p_until (asPayload h w) = Js.VNull) /\
  (forall offset, zone h = Js.fixed_zone offset ->
     (days w = "7" ->
      Z.abs (clock h + 604800000) <= 8640000000000000 ->
      p_until (asPayload h w) = Js.VDate (Some (clock h + 604800000))) /\
     (days w = "1.5" ->
      Z.abs (clock h + 86400000) <= 8640000000000000 ->
      p_until (asPayload h w) = Js.VDate (Some (clock h + 86400000)))).
Proof.
  split; [reflexivity|]. split; [|split; [|split; [|split]]].
  - intros Hnum. unfold asPayload. cbn [p_until]. rewrite Hnum. reflexivity.
  - intros sign Hnum. unfold asPayload. cbn [p_until]. rewrite Hnum.
    reflexivity.
  - intros m e Hnum. apply until_of_number, Hnum.
  - intros Hd. unfold asPayload. cbn [p_until]. rewrite Hd.
    replace (Js.StringToNumber "abc") with Js.NaN by (vm_compute; reflexivity).
    reflexivity.
  - intros offset Hzone. split.
    + intros Hd Hrange.
      assert (Hnum : Js.StringToNumber (days w) = Js.Fin 7 0)
        by (rewrite Hd; vm_compute; reflexivity).
      rewrite (until_of_number h w 7 0 Hnum), Hzone, fixed_zone_round_trip.
      change (Js.truncate 7 0) with 7. change (7 =? 0) with false. cbv iota.
      change (7 * 86400000) with 604800000.
      apply Z.leb_le in Hrange. rewrite Hrange. reflexivity.
    + intros Hd Hrange.
      assert (Hnum : Js.StringToNumber (days w) = Js.Fin 15 (-1))
        by (rewrite Hd; vm_compute; reflexivity).
      rewrite (until_of_number h w 15 (-1) Hnum), Hzone, fixed_zone_round_trip.
      change (Js.truncate 15 (-1)) with 1. change (1 =? 0) with false. cbv iota.
      change (1 * 86400000) with 86400000.
      apply Z.leb_le in Hrange. rewrite Hrange. reflexivity.
Qed.

Lemma asPayload_until_witness :
  p_until (asPayload (Sample.host 1000 (Throw Sample.ghost))
             (Sample.world "7" "spam" Js.VNull true))
  = Js.VDate (Some (1000 + 604800000)).
Proof.
  destruct (asPayload_until (Sample.host 1000 (Throw Sample.ghost))
              (Sample.world "7" "spam" Js.VNull true))
    as (_ & _ & _ & _ & _ & Hfixed).
  apply (proj1 (Hfixed 0 eq_refl)).
  - reflexivity.
  - vm_compute. discriminate.
Defined.

(** C9. A days field that is empty or white space only is not an invalid
    count: it converts to 0, so until is the current time plus 0 days, a
    date (not null) that is in the future at no time from now on. *)
Theorem asPayload_blank_days (h : Host) (w : World) :
  all_white_space (days w) = true ->
  Js.StringToNumber (days w) = Js.Fin 0 0 /\
  p_until (asPayload h w) =
    Js.VDate (DateFns.addDays (zone h) (Some (clock h)) (Js.Fin 0 0)) /\
  p_until (asPayload h w) = Js.VDate (Some (clock h)) /\
  p_until (asPayload h w) <> Js.VNull /\
  (forall parse later, clock h <= later ->
     DateFns.isFuture parse later (p_until (asPayload h w)) = false).
Proof.
  intros Hblank. unfold asPayload. simpl.
  rewrite (StringToNumber_blank _ Hblank). simpl.
  repeat split; try discriminate.
  intros parse later Hle. unfold DateFns.isFuture. simpl.
  apply Z.ltb_ge. exact Hle.
Qed.

Lemma asPayload_blank_days_witness :
  p_until (asPayload (Sample.host 1000 (Throw Sample.ghost))
             (Sample.world "  " "spam" Js.VNull true))
  = Js.VDate (Some 1000).
Proof.
  apply (asPayload_blank_days (Sample.host 1000 (Throw Sample.ghost))
           (Sample.world "  " "spam" Js.VNull true)).
  reflexivity.
Defined.

End Payload.

(* ===================================================================== *)
(** ** Lock and unlock actions *)
(* ===================================================================== *)

Section Actions.
Import App Services Profile.

Ltac run_task :=
  cbv beta iota delta
    [lockTask unlockTask lockTaskWith unlockTaskWith store_normalize takes_all
     try_catch bind read ask await throw ajax store_push reset
     notifications_success notifications_error sentry_captureException
     console_error emit modify ret fst snd].

Ltac project :=
  cbn [fst snd log days reason store model_user authenticated isAdmin
       savedTransition set_log set_fields set_store set_savedTransition].

Example lock_for_three_days :
  let h := Sample.host 1000 (Normal (Sample.resource (Sample.locked "spam" (Js.VDate (Some 259201000))))) in
  let w' := snd (lockTask h (Sample.world "3" "spam" Js.VNull true)) in
  log w' =
    [Ajax {| url := "/api/v1/users/kate/lock"; method := "PUT";
             body := Some (JObject [("reason", JString "spam");
                                    ("until", JInstant 259201000)]);
             headers := [("Content-Type", "application/json")] |};
     NotifySuccess "User account locked";
     StorePush (Sample.resource (Sample.locked "spam" (Js.VDate (Some 259201000))))]
  /\ days w' = "7"
  /\ reason w' = "Please contact help@crates.io."
  /\ lockedUntil w' = Js.VDate (Some 259201000)
  /\ isCurrentlyLocked h w' = true.
Proof. vm_compute. repeat split; reflexivity. Qed.

(** C6. A lock action that succeeds (the request is answered and the
    store takes the answer) sends the payload of [asPayload()] to the
    user's lock endpoint with PUT, then shows the success notification,
    resets days to "7" and reason to the default contact message, and
    merges the returned user into the cache: the cached record takes
    every attribute the answer carries, the returned lock among them, and
    keeps the others. *)
Theorem lockTask_success
    (faults : Resource -> option Error) (h : Host) (w : World) (user : Resource) :
  user_endpoint h (lock_request h w) = Normal user ->
  faults user = None ->
  let r := lockTaskWith faults h w in
  let old := record (r_id user) w in
  fst r = Normal tt /\
  log (snd r) =
    (log w ++ [Ajax (lock_request h w);
               NotifySuccess "User account locked";
               StorePush user])%list /\
  method (lock_request h w) = "PUT" /\
  url (lock_request h w) = "/api/v1/users/" ++ login (model_user_record w) ++ "/lock" /\
  body (lock_request h w) =
    Some (JObject [("reason", JString (p_reason (asPayload h w)));
                   ("until", match p_until (asPayload h w) with
                             | Js.VDate (Some t) => JInstant t
                             | _ => JNull
                             end)]) /\
  days (snd r) = "7" /\
  reason (snd r) = "Please contact help@crates.io." /\
  store (snd r) =
    <[r_id user :=
        {| email := match a_email (r_attrs user) with
                     | Some v => v | None => email old end;
            email_verified := match a_email_verified (r_attrs user) with
                              | Some v => v | None => email_verified old end;
            email_verification_sent :=
              match a_email_verification_sent (r_attrs user) with
              | Some v => v | None => email_verification_sent old end;
            name := match a_name (r_attrs user) with
                    | Some v => v | None => name old end;
            is_admin := match a_is_admin (r_attrs user) with
                        | Some v => v | None => is_admin old end;
            login := match a_login (r_attrs user) with
                     | Some v => v | None => login old end;
            avatar := match a_avatar (r_attrs user) with
                      | Some v => v | None => avatar old end;
            url_ := match a_url (r_attrs user) with
                    | Some v => v | None => url_ old end;
            kind := match a_kind (r_attrs user) with
                    | Some v => v | None => kind old end;
            publish_notifications :=
              match a_publish_notifications (r_attrs user) with
              | Some v => v | None => publish_notifications old end;
            lock := match a_lock (r_attrs user) with
                    | Some v => v | None => lock old end |}]>
      (store w) /\
  (forall l, a_lock (r_attrs user) = Some l ->
     lock <$> (store (snd r) !! r_id user) = Some l).
Proof.
  intros Hok Hfault. cbv zeta. unfold lock_request in Hok |- *. run_task.
  rewrite Hok. run_task. rewrite Hfault. run_task. project.
  split; [reflexivity|]. split; [rewrite <- !app_assoc; reflexivity|].
  do 5 (split; [reflexivity|]). split; [reflexivity|].
  intros l Hlock. rewrite lookup_insert_eq. cbn [fmap option_fmap option_map].
  unfold merge, upd. cbn [lock]. rewrite Hlock. reflexivity.
Qed.

Lemma lockTask_success_witness :
  lock <$> (store (snd (lockTask
    (Sample.host 1000 (Normal (Sample.resource (Sample.locked "spam" Js.VNull))))
    (Sample.world "3" "spam" Js.VNull true))) !! "42")
  = Some (Sample.locked "spam" Js.VNull).
Proof.
  destruct (lockTask_success Services.takes_all
    (Sample.host 1000 (Normal (Sample.resource (Sample.locked "spam" Js.VNull))))
    (Sample.world "3" "spam" Js.VNull true)
    (Sample.resource (Sample.locked "spam" Js.VNull))
    eq_refl eq_refl) as (_ & _ & _ & _ & _ & _ & _ & _ & Hlock).
  exact (Hlock (Sample.locked "spam" Js.VNull) eq_refl).
Defined.

(** C10, as it was stated, fails: when the request succeeds and the store
    then throws on the returned user, the action fails (error
    notification, Sentry report) with the fields already reset. *)
Lemma failed_action_keeps_state_counterexample :
  new_events (Sample.world "3" "spam" Js.VNull true)
    (snd (lockTaskWith (Fixtures.refusing (OtherError "cannot normalize"))
            (Sample.host 1000 (Normal (Sample.resource (Sample.locked "spam" Js.VNull))))
            (Sample.world "3" "spam" Js.VNull true)))
  = [Ajax {| url := "/api/v1/users/kate/lock"; method := "PUT";
             body := Some (JObject [("reason", JString "spam");
                                    ("until", JInstant 259201000)]);
             headers := [("Content-Type", "application/json")] |};
     NotifySuccess "User account locked";
     NotifyError "An error occurred while locking the account.";
     SentryCapture (OtherError "cannot normalize");
     ConsoleError (OtherError "cannot normalize")]
  /\ days (snd (lockTaskWith (Fixtures.refusing (OtherError "cannot normalize"))
            (Sample.host 1000 (Normal (Sample.resource (Sample.locked "spam" Js.VNull))))
            (Sample.world "3" "spam" Js.VNull true))) = "7"
  /\ reason (snd (lockTaskWith (Fixtures.refusing (OtherError "cannot normalize"))
            (Sample.host 1000 (Normal (Sample.resource (Sample.locked "spam" Js.VNull))))
            (Sample.world "3" "spam" Js.VNull true)))
     = "Please contact help@crates.io."
  /\ ui_state (snd (lockTaskWith (Fixtures.refusing (OtherError "cannot normalize"))
            (Sample.host 1000 (Normal (Sample.resource (Sample.locked "spam" Js.VNull))))
            (Sample.world "3" "spam" Js.VNull true)))
     <> ui_state (Sample.world "3" "spam" Js.VNull true).
Proof. vm_compute. repeat split; discriminate. Qed.

(** C10, amended. A lock or unlock action whose request is rejected
    leaves the days and reason fields and the user cache as they were:
    the failure path only notifies, reports to Sentry and logs, and the
    task completes without throwing.  When the request succeeds and the
    store throws on the returned user, the same failure path runs after
    the success notification and the reset: the fields are at their
    defaults and nothing is pushed.  The fields or the cache change only
    when the request succeeded. *)
Theorem failed_action_keeps_state
    (faults : Resource -> option Error) (h : Host) (w : World) :
  (forall e, user_endpoint h (lock_request h w) = Throw e ->
     lockTaskWith faults h w =
       (Normal tt,
        set_log (log w ++ [Ajax (lock_request h w);
                           NotifyError "An error occurred while locking the account.";
                           SentryCapture e;
                           ConsoleError e]) w)) /\
  (forall e, user_endpoint h (unlock_request w) = Throw e ->
     unlockTaskWith faults h w =
       (Normal tt,
        set_log (log w ++ [Ajax (unlock_request w);
                           NotifyError "An error occurred while unlocking the account.";
                           SentryCapture e;
                           ConsoleError e]) w)) /\
  (forall user e,
     user_endpoint h (lock_request h w) = Normal user -> faults user = Some e ->
     lockTaskWith faults h w =
       (Normal tt,
        set_log (log w ++ [Ajax (lock_request h w);
                           NotifySuccess "User account locked";
                           NotifyError "An error occurred while locking the account.";
                           SentryCapture e;
                           ConsoleError e])
          (set_fields "7" "Please contact help@crates.io." w))) /\
  (forall user e,
     user_endpoint h (unlock_request w) = Normal user -> faults user = Some e ->
     unlockTaskWith faults h w =
       (Normal tt,
        set_log (log w ++ [Ajax (unlock_request w);
                           NotifySuccess "User account unlocked";
                           NotifyError "An error occurred while unlocking the account.";
                           SentryCapture e;
                           ConsoleError e])
          (set_fields "7" "Please contact help@crates.io." w))) /\
  (ui_state (snd (lockTaskWith faults h w)) <> ui_state w ->
     exists user, user_endpoint h (lock_request h w) = Normal user) /\
  (ui_state (snd (unlockTaskWith faults h w)) <> ui_state w ->
     exists user, user_endpoint h (unlock_request w) = Normal user).
Proof.
  assert (Hlock : forall e, user_endpoint h (lock_request h w) = Throw e ->
     lockTaskWith faults h w =
       (Normal tt,
        set_log (log w ++ [Ajax (lock_request h w);
                           NotifyError "An error occurred while locking the account.";
                           SentryCapture e;
                           ConsoleError e]) w)).
  { intros e Hfail. unfold lock_request in Hfail |- *. run_task.
    rewrite Hfail. unfold set_log. project. rewrite <- !app_assoc.
    reflexivity. }
  assert (Hunlock : forall e, user_endpoint h (unlock_request w) = Throw e ->
     unlockTaskWith faults h w =
       (Normal tt,
        set_log (log w ++ [Ajax (unlock_request w);
                           NotifyError "An error occurred while unlocking the account.";
                           SentryCapture e;
                           ConsoleError e]) w)).
  { intros e Hfail. unfold unlock_request in Hfail |- *. run_task.
    rewrite Hfail. unfold set_log. project. rewrite <- !app_assoc.
    reflexivity. }
  split; [exact Hlock|]. split; [exact Hunlock|]. split; [|split; [|split]].
  - intros user e Hok Hfault. unfold lock_request in Hok |- *. run_task.
    rewrite Hok. run_task. rewrite Hfault. run_task.
    unfold set_log, set_fields. project. rewrite <- !app_assoc. reflexivity.
  - intros user e Hok Hfault. unfold unlock_request in Hok |- *. run_task.
    rewrite Hok. run_task. rewrite Hfault. run_task.
    unfold set_log, set_fields. project. rewrite <- !app_assoc. reflexivity.
  - intros Hchanged.
    destruct (user_endpoint h (lock_request h w)) as [user|e] eqn:Hans.
    + exists user. reflexivity.
    + exfalso. apply Hchanged. rewrite (Hlock e eq_refl). reflexivity.
  - intros Hchanged.
    destruct (user_endpoint h (unlock_request w)) as [user|e] eqn:Hans.
    + exists user. reflexivity.
    + exfalso. apply Hchanged. rewrite (Hunlock e eq_refl). reflexivity.
Qed.

Lemma failed_action_keeps_state_witness :
  ui_state (snd (lockTaskWith Services.takes_all
                   (Sample.host 1000 (Throw (HttpError (Some 500))))
                   (Sample.world "3" "spam" Js.VNull true)))
  = ui_state (Sample.world "3" "spam" Js.VNull true).
Proof.
  rewrite (proj1 (failed_action_keeps_state Services.takes_all
             (Sample.host 1000 (Throw (HttpError (Some 500))))
             (Sample.world "3" "spam" Js.VNull true))
           (HttpError (Some 500)) eq_refl).
  reflexivity.
Defined.

Example unlock_succeeds :
  let h := Sample.host 1000 (Normal (Sample.resource Js.VNull)) in
  let w' := snd (unlockTask h (Sample.world "3" "spam" (Sample.locked "spam" Js.VNull) true)) in
  log w' =
    [Ajax {| url := "/api/v1/users/kate/lock"; method := "DELETE";
             body := None; headers := [] |};
     NotifySuccess "User account unlocked";
     StorePush (Sample.resource Js.VNull)]
  /\ days w' = "7"
  /\ reason w' = "Please contact help@crates.io."
  /\ isCurrentlyLocked h w' = false.
Proof. vm_compute. repeat split; reflexivity. Qed.

End Actions.

(* ===================================================================== *)
(** ** Remote mutations of the user model *)
(* ===================================================================== *)

Section Mutations.
Import App Services UserModel.

Ltac run_action :=
  cbv beta iota delta
    [changeEmail updatePublishNotifications resendVerificationEmail apiAction
     bind ask await store_push emit modify ret fst snd].

Ltac project :=
  cbn [fst snd log days reason store model_user authenticated isAdmin
       savedTransition set_log set_fields set_store set_savedTransition].

Example change_email_of_kate :
  let h := Sample.host 1000 (Throw Sample.ghost) in
  let w' := snd (changeEmail "42" "kate@new.example" h
                   (Sample.world "7" "" (Sample.locked "spam" Js.VNull) true)) in
  store w' !! "42" =
    Some {| email := Js.VStr "kate@new.example"; email_verified := Js.VBool false;
            email_verification_sent := Js.VBool true; name := Js.VStr "Kate";
            is_admin := Js.VBool false; login := "kate"; avatar := Js.VNull;
            url_ := Js.VStr "https://github.com/kate"; kind := Js.VStr "user";
            publish_notifications := Js.VBool true;
            lock := Sample.locked "spam" Js.VNull |}.
Proof. vm_compute. reflexivity. Qed.

(** C8. After a successful remote mutation only the fields it is known
    to change are patched in the cache: [changeEmail] sets the email,
    clears [email_verified] and sets [email_verification_sent];
    [updatePublishNotifications] sets [publish_notifications]; every other
    attribute, every other record and the rest of the state stay as they
    were; [resendVerificationEmail] returns the server's output and
    patches nothing. *)
Theorem mutations_patch_known_fields (h : Host) (w : World) (self : string) :
  (forall email out,
     user_action h self "PUT" None (Some (email_data email)) = Normal out ->
     let r := changeEmail self email h w in
     let u := record self w in
     fst r = Normal tt /\
     store (snd r) =
       <[self := {| email := Js.VStr email;
                    email_verified := Js.VBool false;
                    email_verification_sent := Js.VBool true;
                    name := name u; is_admin := is_admin u; login := login u;
                    avatar := avatar u; url_ := url_ u; kind := kind u;
                    publish_notifications := publish_notifications u;
                    lock := lock u |}]> (store w) /\
     (forall other, other <> self -> store (snd r) !! other = store w !! other) /\
     (days (snd r), reason (snd r), model_user (snd r)) =
       (days w, reason w, model_user w)) /\
  (forall enabled out,
     user_action h self "PUT" None (Some (notifications_data enabled)) = Normal out ->
     let r := updatePublishNotifications self enabled h w in
     let u := record self w in
     fst r = Normal tt /\
     store (snd r) =
       <[self := {| email := email u;
                    email_verified := email_verified u;
                    email_verification_sent := email_verification_sent u;
                    name := name u; is_admin := is_admin u; login := login u;
                    avatar := avatar u; url_ := url_ u; kind := kind u;
                    publish_notifications := Js.VBool enabled;
                    lock := lock u |}]> (store w) /\
     (forall other, other <> self -> store (snd r) !! other = store w !! other) /\
     (days (snd r), reason (snd r), model_user (snd r)) =
       (days w, reason w, model_user w)) /\
  resendVerificationEmail self h w =
    (user_action h self "PUT" (Some "resend") None,
     set_log (log w ++ [ApiAction self "PUT" (Some "resend") None]) w).
Proof.
  split; [|split].
  - intros email out Hok. unfold email_data in Hok. run_action.
    rewrite Hok. run_action. project. unfold record, merge. cbn.
    repeat split. intros other Hne. apply lookup_insert_ne. congruence.
  - intros enabled out Hok. unfold notifications_data in Hok. run_action.
    rewrite Hok. run_action. project. unfold record, merge. cbn.
    repeat split. intros other Hne. apply lookup_insert_ne. congruence.
  - run_action. reflexivity.
Qed.

Lemma mutations_patch_known_fields_witness :
  fst (changeEmail "42" "kate@new.example" (Sample.host 1000 (Throw Sample.ghost))
         (Sample.world "7" "" Js.VNull true)) = Normal tt.
Proof.
  apply (proj1 (mutations_patch_known_fields
                  (Sample.host 1000 (Throw Sample.ghost))
                  (Sample.world "7" "" Js.VNull true) "42")
           "kate@new.example" Js.VUndefined).
  reflexivity.
Defined.

End Mutations.

(* ===================================================================== *)
(** ** Route failures and the admin guard *)
(* ===================================================================== *)

Section RouteHooks.
Import App Services.

Ltac run_hook :=
  cbv beta iota zeta delta
    [AdminUserRoute.model AdminUserRoute.modelWith store_normalize takes_all
     AdminUserCratesRoute.model AdminRoute.beforeModel
     AuthenticatedRoute.beforeModel Navigation.hook_then
     try_catch bind read ask await throw ajax store_push store_query
     replaceWith undeclared emit modify ret fst snd].

Ltac project :=
  cbn [fst snd log days reason store model_user authenticated isAdmin
       savedTransition set_log set_fields set_store set_savedTransition].

Lemma is_http_404_iff (e : Error) :
  AdminUserRoute.is_http_404 e = true <-> e = HttpError (Some 404).
Proof.
  destruct e as [[status|]| | |]; simpl; split; try discriminate.
  - intros Heq. apply Z.eqb_eq in Heq. now subst.
  - intros Heq. injection Heq as ->. reflexivity.
Qed.

Example ghost_is_not_found :
  AdminUserRoute.model "ghost" Sample.visit
    (Sample.host 1000 (Throw (HttpError (Some 404))))
    (Sample.world "7" "" Js.VNull true)
  = (Normal None,
     set_log
       [Ajax (admin_request "ghost");
        ReplaceWith "catch-all"
          {| ca_transition := Sample.visit;
             ca_error := Some (HttpError (Some 404));
             ca_title := "ghost: User not found";
             ca_tryAgain := None;
             ca_loginNeeded := None |}]
       (Sample.world "7" "" Js.VNull true)).
Proof. reflexivity. Qed.

Example ghost_fails_to_load :
  AdminUserRoute.model "ghost" Sample.visit
    (Sample.host 1000 (Throw (HttpError (Some 500))))
    (Sample.world "7" "" Js.VNull true)
  = (Normal None,
     set_log
       [Ajax (admin_request "ghost");
        ReplaceWith "catch-all"
          {| ca_transition := Sample.visit;
             ca_error := Some (HttpError (Some 500));
             ca_title := "ghost: Failed to load user data";
             ca_tryAgain := Some true;
             ca_loginNeeded := None |}]
       (Sample.world "7" "" Js.VNull true)).
Proof. reflexivity. Qed.

(** C4. When the admin fetch of user [user_id] fails (the request is
    rejected, or the store throws on the answer), the route redirects once
    to the error view: for an HTTP 404 with title "<id>: User not found"
    and no retry flag, for any other failure with title "<id>: Failed to
    load user data" and the retry flag.  The hook completes normally: the
    error is not thrown on to the caller. *)
Theorem admin_user_fetch_failure
    (faults : Resource -> option Error) (h : Host) (w : World)
    (user_id : string) (t : Transition) (e : Error) :
  (user_endpoint h (admin_request user_id) = Throw e \/
   exists res, user_endpoint h (admin_request user_id) = Normal res /\
               faults res = Some e) ->
  (e = HttpError (Some 404) ->
   AdminUserRoute.modelWith faults user_id t h w =
     (Normal None,
      set_log (log w ++
               [Ajax (admin_request user_id);
                ReplaceWith "catch-all"
                  {| ca_transition := t;
                     ca_error := Some (HttpError (Some 404));
                     ca_title := user_id ++ ": User not found";
                     ca_tryAgain := None;
                     ca_loginNeeded := None |}]) w)) /\
  (e <> HttpError (Some 404) ->
   AdminUserRoute.modelWith faults user_id t h w =
     (Normal None,
      set_log (log w ++
               [Ajax (admin_request user_id);
                ReplaceWith "catch-all"
                  {| ca_transition := t;
                     ca_error := Some e;
                     ca_title := user_id ++ ": Failed to load user data";
                     ca_tryAgain := Some true;
                     ca_loginNeeded := None |}]) w)).
Proof.
  intros Hfail.
  assert (Hrun : AdminUserRoute.modelWith faults user_id t h w =
    (Normal None,
     set_log (log w ++
              [Ajax (admin_request user_id);
               ReplaceWith "catch-all"
                 {| ca_transition := t;
                    ca_error := Some e;
                    ca_title :=
                      if AdminUserRoute.is_http_404 e
                      then user_id ++ ": User not found"
                      else user_id ++ ": Failed to load user data";
                    ca_tryAgain :=
                      if AdminUserRoute.is_http_404 e then None else Some true;
                    ca_loginNeeded := None |}]) w)).
  { unfold admin_request in Hfail |- *. run_hook.
    destruct Hfail as [Hfail | (res & Hok & Hfault)].
    - rewrite Hfail.
      destruct (AdminUserRoute.is_http_404 e); run_hook;
        unfold set_log; project; rewrite <- !app_assoc; reflexivity.
    - rewrite Hok. run_hook. rewrite Hfault. run_hook.
      destruct (AdminUserRoute.is_http_404 e); run_hook;
        unfold set_log; project; rewrite <- !app_assoc; reflexivity. }
  split.
  - intros ->. rewrite Hrun. reflexivity.
  - intros Hother. rewrite Hrun.
    destruct (AdminUserRoute.is_http_404 e) eqn:H404; [|reflexivity].
    apply is_http_404_iff in H404. contradiction.
Qed.

Lemma admin_user_fetch_failure_witness :
  AdminUserRoute.model "ghost" Sample.visit
    (Sample.host 1000 (Throw (HttpError (Some 404))))
    (Sample.world "7" "" Js.VNull true)
  = (Normal None,
     set_log
       [Ajax (admin_request "ghost");
        ReplaceWith "catch-all"
          {| ca_transition := Sample.visit;
             ca_error := Some (HttpError (Some 404));
             ca_title := "ghost: User not found";
             ca_tryAgain := None;
             ca_loginNeeded := None |}]
       (Sample.world "7" "" Js.VNull true))
  /\ fst (AdminUserRoute.model "ghost" Sample.visit
            (Sample.host 1000 (Throw (HttpError (Some 500))))
            (Sample.world "7" "" Js.VNull true)) = Normal None.
Proof.
  split.
  - apply (proj1 (admin_user_fetch_failure Services.takes_all
             (Sample.host 1000 (Throw (HttpError (Some 404))))
             (Sample.world "7" "" Js.VNull true) "ghost" Sample.visit
             (HttpError (Some 404)) (or_introl eq_refl)) eq_refl).
  - unfold AdminUserRoute.model.
    rewrite (proj2 (admin_user_fetch_failure Services.takes_all
               (Sample.host 1000 (Throw (HttpError (Some 500))))
               (Sample.world "7" "" Js.VNull true) "ghost" Sample.visit
               (HttpError (Some 500)) (or_introl eq_refl))
             ltac:(discriminate)).
    reflexivity.
Defined.

(** C2 (the code departs from it).  When the crates query fails, the
    handler of the crates route reads [user_id], which nothing declares:
    whatever the failure, the hook throws a ReferenceError and issues no
    redirect at all. *)
Theorem crates_fetch_failure_throws
    (h : Host) (w : World) (params : list (string * Js.Val))
    (t : Transition) (e : Error) :
  crate_query h (crates_params (model_user w) params) = Throw e ->
  AdminUserCratesRoute.model params t h w =
    (Throw (ReferenceError "user_id"),
     set_log (log w ++ [StoreQuery "crate" (crates_params (model_user w) params)]) w).
Proof.
  intros Hfail. unfold crates_params in Hfail |- *. run_hook. rewrite Hfail.
  destruct (AdminUserCratesRoute.is_not_found e); reflexivity.
Qed.

Lemma crates_fetch_failure_throws_witness :
  AdminUserCratesRoute.model [("page", Js.VStr "1")] Sample.visit
    (Sample.host 1000 (Throw Sample.ghost))
    (Sample.world "7" "" Js.VNull true)
  = (Throw (ReferenceError "user_id"),
     set_log [StoreQuery "crate"
                [("page", Js.VStr "1"); ("user_id", Js.VStr "42");
                 ("include_yanked", Js.VStr "yes")]]
       (Sample.world "7" "" Js.VNull true)).
Proof.
  apply (crates_fetch_failure_throws
           (Sample.host 1000 (Throw Sample.ghost))
           (Sample.world "7" "" Js.VNull true)
           [("page", Js.VStr "1")] Sample.visit NotFoundError).
  reflexivity.
Defined.

(** C7. When an authenticated session that is not an admin's enters an
    admin route, the guard stores the transition in the session and
    redirects to the catch-all route with that transition, the
    login-needed flag and the fixed title; the hooks that follow (the
    routes' data fetches) are not run, so the redirect is the only call
    made. *)
Theorem non_admin_is_turned_away
    (h : Host) (w : World) (t : Transition) (A : Type) (rest : M (option A)) :
  authenticated w = true ->
  isAdmin w = false ->
  AdminRoute.beforeModel t h w =
    (Normal tt,
     set_log (log w ++ [ReplaceWith "catch-all" (login_needed_view t)])
       (set_savedTransition (Some t) w)) /\
  Navigation.hook_then (AdminRoute.beforeModel t) rest h w =
    (Normal None,
     set_log (log w ++ [ReplaceWith "catch-all" (login_needed_view t)])
       (set_savedTransition (Some t) w)) /\
  savedTransition (snd (Navigation.hook_then (AdminRoute.beforeModel t) rest h w))
    = Some t /\
  existsb Navigation.is_fetch
    (skipn (length (log w))
       (log (snd (Navigation.hook_then (AdminRoute.beforeModel t) rest h w))))
    = false.
Proof.
  intros Hauth Hadmin.
  assert (Hguard : AdminRoute.beforeModel t h w =
    (Normal tt,
     set_log (log w ++ [ReplaceWith "catch-all" (login_needed_view t)])
       (set_savedTransition (Some t) w))).
  { run_hook. rewrite Hauth, Hadmin. reflexivity. }
  assert (Hnav : Navigation.hook_then (AdminRoute.beforeModel t) rest h w =
    (Normal None,
     set_log (log w ++ [ReplaceWith "catch-all" (login_needed_view t)])
       (set_savedTransition (Some t) w))).
  { unfold Navigation.hook_then. rewrite Hguard. project.
    rewrite drop_app_length. reflexivity. }
  split; [exact Hguard|]. split; [exact Hnav|].
  rewrite Hnav. project. rewrite drop_app_length. split; reflexivity.
Qed.

Lemma non_admin_is_turned_away_witness :
  savedTransition
    (snd (Navigation.enter_admin_user "ghost" Sample.visit
            (Sample.host 1000 (Normal (Sample.resource Js.VNull)))
            (Sample.world "7" "" Js.VNull false)))
  = Some Sample.visit.
Proof.
  apply (non_admin_is_turned_away
           (Sample.host 1000 (Normal (Sample.resource Js.VNull)))
           (Sample.world "7" "" Js.VNull false) Sample.visit
           string (AdminUserRoute.model "ghost" Sample.visit)).
  - reflexivity.
  - reflexivity.
Defined.

Example admin_reaches_the_fetch :
  log (snd (Navigation.enter_admin_user "42" Sample.visit
              (Sample.host 1000 (Normal (Sample.resource Js.VNull)))
              (Sample.world "7" "" Js.VNull true)))
  = [Ajax (admin_request "42"); StorePush (Sample.resource Js.VNull)].
Proof. reflexivity. Qed.

End RouteHooks.

(* ===================================================================== *)
(** ** The days text *)
(* ===================================================================== *)

Section DaysText.
Import App Profile.

Lemma digit_value_char (d : Z) :
  is_digit d -> Js.digit_value 10 (digit_char d) = Some d.
Proof.
  intros Hd. unfold is_digit in Hd.
  assert (Hcases : d = 0 \/ d = 1 \/ d = 2 \/ d = 3 \/ d = 4 \/
                   d = 5 \/ d = 6 \/ d = 7 \/ d = 8 \/ d = 9) by lia.
  repeat (destruct Hcases as [-> | Hcases]; [reflexivity|]).
  subst d. reflexivity.
Qed.

Lemma digit_char_not_space (d : Z) :
  is_digit d -> Js.is_white_space (digit_char d) = false.
Proof.
  intros Hd. unfold is_digit in Hd.
  assert (Hcases : d = 0 \/ d = 1 \/ d = 2 \/ d = 3 \/ d = 4 \/
                   d = 5 \/ d = 6 \/ d = 7 \/ d = 8 \/ d = 9) by lia.
  repeat (destruct Hcases as [-> | Hcases]; [reflexivity|]).
  subst d. reflexivity.
Qed.

Lemma read_digits_string (ds : list Z) :
  Forall is_digit ds -> Js.read_digits 10 (digits_string ds) = (ds, EmptyString).
Proof.
  induction 1 as [|d r Hd _ IH]; [reflexivity|].
  cbn [digits_string Js.read_digits].
  rewrite (digit_value_char d Hd), IH. reflexivity.
Qed.

Lemma trim_start_digits (ds : list Z) :
  Forall is_digit ds -> Js.trim_start (digits_string ds) = digits_string ds.
Proof.
  destruct 1 as [|d r Hd _]; [reflexivity|].
  cbn [digits_string Js.trim_start].
  rewrite (digit_char_not_space d Hd). reflexivity.
Qed.

Lemma trim_end_digits (ds : list Z) :
  Forall is_digit ds -> Js.trim_end (digits_string ds) = digits_string ds.
Proof.
  induction 1 as [|d r Hd _ IH]; [reflexivity|].
  cbn [digits_string Js.trim_end]. rewrite IH.
  destruct (digits_string r); [|reflexivity].
  rewrite (digit_char_not_space d Hd). reflexivity.
Qed.

Lemma round_half_even_1 (x : Z) : Js.round_half_even x 1 = x.
Proof.
  unfold Js.round_half_even. rewrite Z.div_1_r, Z.mod_1_r. reflexivity.
Qed.

Lemma strip_twos_pow (k : nat) (x : Z) :
  Js.strip_twos k (x * 2 ^ Z.of_nat k) = (x, O).
Proof.
  induction k as [|k IH].
  - cbn [Js.strip_twos]. change (Z.of_nat 0) with 0.
    rewrite Z.pow_0_r, Z.mul_1_r. reflexivity.
  - cbn [Js.strip_twos]. rewrite Nat2Z.inj_succ, Z.pow_succ_r by lia.
    replace (x * (2 * 2 ^ Z.of_nat k)) with (2 * (x * 2 ^ Z.of_nat k)) by lia.
    rewrite Z.even_mul. cbn [Z.even orb].
    replace (2 * (x * 2 ^ Z.of_nat k) / 2) with (x * 2 ^ Z.of_nat k)
      by (apply Z.div_unique_exact; lia).
    exact IH.
Qed.

(** A whole number below 2^53 is a double. *)
Lemma of_decimal_exact (n : Z) :
  0 <= n < 9007199254740992 -> Js.of_decimal n 0 = Js.Fin n 0.
Proof.
  intros [Hlo Hhi]. unfold Js.of_decimal.
  destruct (n <=? 0) eqn:Hzero.
  - apply Z.leb_le in Hzero. replace n with 0 by lia. reflexivity.
  - apply Z.leb_gt in Hzero. cbn [Z.leb Z.compare].
    rewrite Z.pow_0_r, Z.mul_1_r.
    assert (Hlog : 0 <= Z.log2 n <= 52).
    { split; [apply Z.log2_nonneg|].
      assert (Z.log2 n < 53); [|lia].
      apply Z.log2_lt_pow2; [lia|]. change (2 ^ 53) with 9007199254740992.
      lia. }
    assert (Hratio : Js.log2_ratio n 1 = Z.log2 n).
    { unfold Js.log2_ratio. change (Z.log2 1) with 0. rewrite Z.sub_0_r.
      destruct (0 <=? Z.log2 n) eqn:Hnonneg; [|apply Z.leb_gt in Hnonneg; lia].
      rewrite Z.mul_1_l.
      destruct (n <? 2 ^ Z.log2 n) eqn:Hlt; [|reflexivity].
      apply Z.ltb_lt in Hlt.
      pose proof (Z.log2_spec n Hzero). lia. }
    unfold Js.nearest_double. rewrite Hratio.
    replace (Z.max (Z.log2 n - 52) (-1074)) with (Z.log2 n - 52) by lia.
    destruct (Z.log2 n - 52 <? 0) eqn:Hp.
    + apply Z.ltb_lt in Hp. rewrite round_half_even_1.
      replace (0 <=? Z.log2 n - 52) with false
        by (symmetry; apply Z.leb_gt; lia).
      cbn [andb]. unfold Js.dyadic.
      assert (Hpow : 0 < 2 ^ (- (Z.log2 n - 52))) by (apply Z.pow_pos_nonneg; lia).
      replace (n * 2 ^ (- (Z.log2 n - 52)) =? 0) with false
        by (symmetry; apply Z.eqb_neq; nia).
      replace (0 <=? Z.log2 n - 52) with false
        by (symmetry; apply Z.leb_gt; lia).
      assert (Hk : - (Z.log2 n - 52) = Z.of_nat (Z.to_nat (- (Z.log2 n - 52))))
        by (symmetry; apply Z2Nat.id; lia).
      rewrite Hk, Nat2Z.id, strip_twos_pow.
      replace (n * 5 ^ Z.of_nat 0) with n
        by (change (5 ^ Z.of_nat 0) with 1; lia).
      reflexivity.
    + apply Z.ltb_ge in Hp.
      replace (Z.log2 n - 52) with 0 by lia.
      rewrite !Z.pow_0_r, ?Z.mul_1_r, ?Z.mul_1_l, round_half_even_1.
      replace (2 ^ 1024 <=? n) with false.
      * cbn [Z.leb Z.compare andb]. unfold Js.dyadic.
        replace (n =? 0) with false by (symmetry; apply Z.eqb_neq; lia).
        cbn [Z.leb Z.compare]. rewrite ?Z.pow_0_r, ?Z.mul_1_r. reflexivity.
      * symmetry. apply Z.leb_gt.
        assert (2 ^ 53 <= 2 ^ 1024) by (apply Z.pow_le_mono_r; lia).
        change (2 ^ 53) with 9007199254740992 in *. lia.
Qed.

Lemma digits_value_from (ds : list Z) (acc : Z) :
  Forall is_digit ds -> 0 <= acc ->
  0 <= fold_left (fun a d => a * 10 + d) ds acc.
Proof.
  intros Hall. revert acc.
  induction Hall as [|d r Hd _ IH]; intros acc Hacc; [exact Hacc|].
  cbn [fold_left]. apply IH. unfold is_digit in Hd. lia.
Qed.

Lemma digits_value_nonneg (ds : list Z) :
  Forall is_digit ds -> 0 <= Js.digits_value 10 ds.
Proof. intros Hall. apply digits_value_from; [exact Hall | lia]. Qed.

Lemma numeric_literal_digits (d : Z) (r : list Z) :
  Forall is_digit (d :: r) ->
  Js.digits_value 10 (d :: r) < 9007199254740992 ->
  Js.numeric_literal (digits_string (d :: r)) =
  Js.Fin (Js.digits_value 10 (d :: r)) 0.
Proof.
  intros Hall Hsmall.
  assert (Hread := read_digits_string (d :: r) Hall).
  assert (Hun : Js.unsigned_decimal (digits_string (d :: r)) =
                Js.Fin (Js.digits_value 10 (d :: r)) 0).
  { unfold Js.unsigned_decimal. rewrite Hread.
    replace (String.eqb (digits_string (d :: r)) "Infinity") with false.
    - cbn [Js.is_nil Js.exponent_part]. apply of_decimal_exact.
      split; [apply digits_value_nonneg, Hall | exact Hsmall].
    - inversion Hall as [|? ? Hd _]; subst. unfold is_digit in Hd.
      assert (Hcases : d = 0 \/ d = 1 \/ d = 2 \/ d = 3 \/ d = 4 \/
                       d = 5 \/ d = 6 \/ d = 7 \/ d = 8 \/ d = 9) by lia.
      repeat (destruct Hcases as [-> | Hcases]; [reflexivity|]).
      subst d. reflexivity. }
  rewrite <- Hun.
  inversion Hall as [|? ? Hd Hr]; subst. unfold is_digit in Hd.
  assert (Hcases : d = 0 \/ d = 1 \/ d = 2 \/ d = 3 \/ d = 4 \/
                   d = 5 \/ d = 6 \/ d = 7 \/ d = 8 \/ d = 9) by lia.
  destruct Hcases as [-> | Hcases].
  - destruct Hr as [|d2 r2 Hd2 _]; [reflexivity|]. unfold is_digit in Hd2.
    assert (Hcases : d2 = 0 \/ d2 = 1 \/ d2 = 2 \/ d2 = 3 \/ d2 = 4 \/
                     d2 = 5 \/ d2 = 6 \/ d2 = 7 \/ d2 = 8 \/ d2 = 9) by lia.
    repeat (destruct Hcases as [-> | Hcases]; [reflexivity|]).
    subst d2. reflexivity.
  - repeat (destruct Hcases as [-> | Hcases]; [reflexivity|]).
    subst d. reflexivity.
Qed.

Lemma StringToNumber_digits (ds : list Z) :
  ds <> [] -> Forall is_digit ds ->
  Js.digits_value 10 ds < 9007199254740992 ->
  Js.StringToNumber (digits_string ds) = Js.Fin (Js.digits_value 10 ds) 0.
Proof.
  intros Hne Hall Hsmall. destruct ds as [|d r]; [congruence|].
  unfold Js.StringToNumber, Js.trim.
  rewrite (trim_start_digits _ Hall), (trim_end_digits _ Hall).
  rewrite <- (numeric_literal_digits d r Hall Hsmall). reflexivity.
Qed.

Lemma trim_start_after_blank (a s : string) :
  all_white_space a = true -> Js.trim_start (a ++ s) = Js.trim_start s.
Proof.
  induction a as [|c r IH]; simpl; [reflexivity|].
  destruct (Js.is_white_space c); simpl; [exact IH | discriminate].
Qed.

Lemma trim_end_blank (b : string) :
  all_white_space b = true -> Js.trim_end b = EmptyString.
Proof.
  induction b as [|c r IH]; simpl; [reflexivity|].
  destruct (Js.is_white_space c); simpl; [|discriminate].
  intros Hr. rewrite (IH Hr). reflexivity.
Qed.

Lemma trim_end_before_blank (s b : string) :
  all_white_space b = true -> Js.trim_end (s ++ b) = Js.trim_end s.
Proof.
  intros Hb. induction s as [|c r IH]; simpl.
  - apply trim_end_blank, Hb.
  - rewrite IH. reflexivity.
Qed.

Lemma trim_before_blank (s b : string) :
  all_white_space b = true -> Js.trim (s ++ b) = Js.trim s.
Proof.
  intros Hb. unfold Js.trim. induction s as [|c r IH].
  - change (EmptyString ++ b) with b.
    rewrite (trim_start_blank b Hb). reflexivity.
  - change (String c r ++ b) with (String c (r ++ b)).
    cbn [Js.trim_start]. destruct (Js.is_white_space c); [exact IH|].
    apply (trim_end_before_blank (String c r) b Hb).
Qed.

Lemma StringToNumber_padded (a s b : string) :
  all_white_space a = true -> all_white_space b = true ->
  Js.StringToNumber (a ++ s ++ b) = Js.StringToNumber s.
Proof.
  intros Ha Hb. unfold Js.StringToNumber.
  replace (Js.trim (a ++ s ++ b)) with (Js.trim s); [reflexivity|].
  unfold Js.trim at 2. rewrite (trim_start_after_blank a (s ++ b) Ha).
  fold (Js.trim (s ++ b)). symmetry. apply trim_before_blank, Hb.
Qed.

Lemma truncate_whole (n : Z) : Js.truncate n 0 = n.
Proof.
  unfold Js.truncate. cbn [Z.leb Z.compare]. rewrite Z.pow_0_r. lia.
Qed.

Lemma fixed_zone_steady (offset : Z) : steady (Js.fixed_zone offset).
Proof.
  intros t d. rewrite fixed_zone_round_trip.
  replace (t + d - (t + d)) with 0 by lia. reflexivity.
Qed.

(** X1. A days field holding a run of decimal digits that spell a number
    below 2^53 converts to that number, and the payload's until is the
    current time itself for 0, else the same local time that many days
    on (an Invalid Date when that is out of the range of dates). *)
Theorem asPayload_digits (h : Host) (w : World) (ds : list Z) :
  ds <> [] -> Forall is_digit ds ->
  days w = digits_string ds ->
  Js.digits_value 10 ds < 9007199254740992 ->
  Js.StringToNumber (days w) = Js.Fin (Js.digits_value 10 ds) 0 /\
  p_until (asPayload h w) =
  Js.VDate
    (if Js.digits_value 10 ds =? 0 then Some (clock h)
     else if Z.abs (Js.UTC (zone h)
                      (Js.LocalTime (zone h) (clock h)
                       + Js.digits_value 10 ds * 86400000)) <=? 8640000000000000
          then Some (Js.UTC (zone h)
                       (Js.LocalTime (zone h) (clock h)
                        + Js.digits_value 10 ds * 86400000))
          else None).
Proof.
  intros Hne Hall Hdays Hsmall.
  assert (Hnum : Js.StringToNumber (days w) = Js.Fin (Js.digits_value 10 ds) 0).
  { rewrite Hdays. apply StringToNumber_digits; assumption. }
  split; [exact Hnum|].
  rewrite (until_of_number h w _ 0 Hnum), truncate_whole. reflexivity.
Qed.

Lemma asPayload_digits_witness :
  p_until (asPayload
    (Fixtures.reading 1709985600000 Fixtures.new_york_2024 (Throw Sample.ghost))
    (Sample.world "30" "spam" Js.VNull true))
  = Js.VDate (Some (1709985600000 + 30 * 86400000 - 3600000)).
Proof.
  refine (eq_trans (proj2 (asPayload_digits
    (Fixtures.reading 1709985600000 Fixtures.new_york_2024 (Throw Sample.ghost))
    (Sample.world "30" "spam" Js.VNull true) [3; 0] _ _ eq_refl _)) _).
  - discriminate.
  - repeat constructor; unfold is_digit; lia.
  - vm_compute. reflexivity.
  - vm_compute. reflexivity.
Defined.

(** X2. White space around the days text does not matter: the payload is
    the one of the text without it. *)
Theorem asPayload_ignores_white_space (h : Host) (w : World) (a d b : string) :
  all_white_space a = true -> all_white_space b = true ->
  asPayload h (with_days (a ++ d ++ b) w) = asPayload h (with_days d w).
Proof.
  intros Ha Hb. unfold asPayload, with_days.
  cbn [days reason set_fields].
  rewrite (StringToNumber_padded a d b Ha Hb). reflexivity.
Qed.

Lemma asPayload_ignores_white_space_witness :
  asPayload (Sample.host 1000 (Throw Sample.ghost))
    (with_days (" " ++ "3" ++ "  ") (Sample.world "7" "spam" Js.VNull true))
  = asPayload (Sample.host 1000 (Throw Sample.ghost))
      (with_days "3" (Sample.world "7" "spam" Js.VNull true)).
Proof.
  apply (asPayload_ignores_white_space (Sample.host 1000 (Throw Sample.ghost))
           (Sample.world "7" "spam" Js.VNull true) " " "3" "  ");
    reflexivity.
Defined.

(** X3. For a days text that converts to a finite number, in a zone
    whose clocks change by less than a day, the lock the payload asks for
    (when a date at all) is in the future at the time of the request
    exactly when the number has at least one whole day: zero, a fraction
    of a day or a negative count ask for a lock that has already
    expired. *)
Theorem payload_future_iff_whole_days
    (h : Host) (w : World) (m e : Z) (parse : string -> option Z) :
  Js.StringToNumber (days w) = Js.Fin m e ->
  steady (zone h) ->
  Z.abs (Js.UTC (zone h)
           (Js.LocalTime (zone h) (clock h) + Js.truncate m e * 86400000))
    <= 8640000000000000 ->
  DateFns.isFuture parse (clock h) (p_until (asPayload h w)) =
  (0 <? Js.truncate m e).
Proof.
  intros Hnum Hsteady Hrange. rewrite (until_of_number h w m e Hnum).
  destruct (Js.truncate m e =? 0) eqn:Hzero.
  - apply Z.eqb_eq in Hzero. rewrite Hzero.
    unfold DateFns.isFuture, DateFns.toDate. apply Z.ltb_irrefl.
  - apply Z.eqb_neq in Hzero. apply Z.leb_le in Hrange. rewrite Hrange.
    unfold DateFns.isFuture, DateFns.toDate.
    specialize (Hsteady (clock h) (Js.truncate m e * 86400000)).
    apply Z.abs_lt in Hsteady.
    destruct (Z.ltb_spec 0 (Js.truncate m e));
      [apply Z.ltb_lt | apply Z.ltb_ge]; lia.
Qed.

Lemma payload_future_iff_whole_days_witness :
  DateFns.isFuture (fun _ => None) 1000
    (p_until (asPayload (Sample.host 1000 (Throw Sample.ghost))
                (Sample.world "0.9999999999999999999" "spam" Js.VNull true)))
  = true.
Proof.
  apply (payload_future_iff_whole_days (Sample.host 1000 (Throw Sample.ghost))
           (Sample.world "0.9999999999999999999" "spam" Js.VNull true)
           1 0 (fun _ => None)).
  - vm_compute. reflexivity.
  - apply fixed_zone_steady.
  - vm_compute. discriminate.
Defined.

(** X4. Two days texts that convert to no finite number (NaN or an
    infinity) make the same lock request, whose body carries a null until:
    "Infinity" locks as indefinitely as "abc". *)
Theorem non_finite_days_lock_indefinitely (h : Host) (w : World) (d1 d2 : string) :
  is_finite (Js.StringToNumber d1) = false ->
  is_finite (Js.StringToNumber d2) = false ->
  lock_request h (with_days d1 w) = lock_request h (with_days d2 w) /\
  body (lock_request h (with_days d1 w)) =
    Some (JObject [("reason", JString (reason w)); ("until", JNull)]).
Proof.
  intros H1 H2. unfold lock_request, with_days, asPayload, JSON_stringify.
  cbn [days reason set_fields p_reason p_until body].
  destruct (Js.StringToNumber d1); try discriminate;
    destruct (Js.StringToNumber d2); try discriminate;
    split; reflexivity.
Qed.

Lemma non_finite_days_lock_indefinitely_witness :
  body (lock_request (Sample.host 1000 (Throw Sample.ghost))
          (with_days "Infinity" (Sample.world "7" "spam" Js.VNull true)))
  = Some (JObject [("reason", JString "spam"); ("until", JNull)]).
Proof.
  apply (non_finite_days_lock_indefinitely
           (Sample.host 1000 (Throw Sample.ghost))
           (Sample.world "7" "spam" Js.VNull true) "Infinity" "abc");
    reflexivity.
Defined.

End DaysText.

(* ===================================================================== *)
(** ** The lock over time, and the actions end to end *)
(* ===================================================================== *)

Section ActionsEndToEnd.
Import App Services Profile.

Ltac run_task :=
  cbv beta iota delta
    [lockTask unlockTask lockTaskWith unlockTaskWith store_normalize takes_all
     try_catch bind read ask await throw ajax store_push reset
     notifications_success notifications_error sentry_captureException
     console_error emit modify ret fst snd].

Ltac project :=
  cbn [fst snd log days reason store model_user authenticated isAdmin
       savedTransition set_log set_fields set_store set_savedTransition].

Lemma new_events_app (w w' : World) (l : list Event) :
  log w' = (log w ++ l)%list -> new_events w w' = l.
Proof. intros Heq. unfold new_events. rewrite Heq. apply drop_app_length. Qed.

(** X5. A lock that is not current stays so as the clock advances, and a
    user shown as previously locked stays shown so: expiry needs no action
    and is never undone by time. *)
Theorem lock_expiry_is_final (h1 h2 : Host) (w : World) :
  date_parse h1 = date_parse h2 ->
  clock h1 <= clock h2 ->
  (isCurrentlyLocked h1 w = false -> isCurrentlyLocked h2 w = false) /\
  (Js.truthy (wasPreviouslyLocked h1 w) = true ->
   Js.truthy (wasPreviouslyLocked h2 w) = true).
Proof.
  intros Hparse Hclock.
  assert (Hmono : isCurrentlyLocked h1 w = false -> isCurrentlyLocked h2 w = false).
  { unfold isCurrentlyLocked, DateFns.isFuture. rewrite Hparse.
    destruct (Js.not (lockReason w)); [reflexivity|].
    destruct (Js.not (lockedUntil w)); [discriminate|].
    destruct (DateFns.toDate (date_parse h2) (lockedUntil w)) as [t|];
      [|reflexivity].
    intros Hpast. apply Z.ltb_ge in Hpast. apply Z.ltb_ge. lia. }
  split; [exact Hmono|].
  unfold wasPreviouslyLocked, Js.and_then.
  destruct (Js.truthy (lockReason w)); [|intros Hr; exact Hr].
  cbn [Js.truthy]. intros Hnot.
  apply negb_true_iff in Hnot. rewrite (Hmono Hnot). reflexivity.
Qed.

Lemma lock_expiry_is_final_witness :
  isCurrentlyLocked (Sample.host 3000 (Throw Sample.ghost))
    (Sample.world "7" "" (Sample.locked "spam" (Js.VDate (Some 1500))) true)
  = false.
Proof.
  apply (lock_expiry_is_final (Sample.host 2000 (Throw Sample.ghost))
           (Sample.host 3000 (Throw Sample.ghost))
           (Sample.world "7" "" (Sample.locked "spam" (Js.VDate (Some 1500))) true)).
  - reflexivity.
  - vm_compute. discriminate.
  - reflexivity.
Defined.

(** X6. An unlock action that succeeds (the request is answered and the
    store takes the answer) sends DELETE with no body to the user's lock
    endpoint, then shows the success notification, resets days and reason
    to their defaults and merges the returned user into the cache: the
    cached record takes every attribute the answer carries and keeps the
    others, and every other cached record is left alone. *)
Theorem unlock_action_success
    (faults : Resource -> option Error) (h : Host) (w : World) (user : Resource) :
  user_endpoint h (unlock_request w) = Normal user ->
  faults user = None ->
  let r := unlockTaskWith faults h w in
  let old := record (r_id user) w in
  fst r = Normal tt /\
  new_events w (snd r) =
    [Ajax {| url := "/api/v1/users/" ++ login (model_user_record w) ++ "/lock";
             method := "DELETE"; body := None; headers := [] |};
     NotifySuccess "User account unlocked";
     StorePush user] /\
  days (snd r) = "7" /\
  reason (snd r) = "Please contact help@crates.io." /\
  store (snd r) !! r_id user =
    Some {| email := match a_email (r_attrs user) with
                     | Some v => v | None => email old end;
            email_verified := match a_email_verified (r_attrs user) with
                              | Some v => v | None => email_verified old end;
            email_verification_sent :=
              match a_email_verification_sent (r_attrs user) with
              | Some v => v | None => email_verification_sent old end;
            name := match a_name (r_attrs user) with
                    | Some v => v | None => name old end;
            is_admin := match a_is_admin (r_attrs user) with
                        | Some v => v | None => is_admin old end;
            login := match a_login (r_attrs user) with
                     | Some v => v | None => login old end;
            avatar := match a_avatar (r_attrs user) with
                      | Some v => v | None => avatar old end;
            url_ := match a_url (r_attrs user) with
                    | Some v => v | None => url_ old end;
            kind := match a_kind (r_attrs user) with
                    | Some v => v | None => kind old end;
            publish_notifications :=
              match a_publish_notifications (r_attrs user) with
              | Some v => v | None => publish_notifications old end;
            lock := match a_lock (r_attrs user) with
                    | Some v => v | None => lock old end |} /\
  (forall other, other <> r_id user ->
     store (snd r) !! other = store w !! other).
Proof.
  intros Hok Hfault. cbv zeta. unfold unlock_request in Hok. run_task.
  rewrite Hok. run_task. rewrite Hfault. run_task. project.
  split; [reflexivity|]. split.
  { apply new_events_app. project. rewrite <- !app_assoc. reflexivity. }
  split; [reflexivity|]. split; [reflexivity|]. split.
  - apply lookup_insert_eq.
  - intros other Hne. apply lookup_insert_ne. congruence.
Qed.

Lemma unlock_action_success_witness :
  lock <$> (store (snd (unlockTask
               (Sample.host 1000 (Normal (Sample.resource Js.VNull)))
               (Sample.world "3" "spam" (Sample.locked "spam" Js.VNull) true)))
            !! "42")
  = Some Js.VNull.
Proof.
  destruct (unlock_action_success Services.takes_all
              (Sample.host 1000 (Normal (Sample.resource Js.VNull)))
              (Sample.world "3" "spam" (Sample.locked "spam" Js.VNull) true)
              (Sample.resource Js.VNull) eq_refl eq_refl)
    as (_ & _ & _ & _ & Hrecord & _).
  cbv zeta in Hrecord. unfold unlockTask.
  change (r_id (Sample.resource Js.VNull)) with "42" in Hrecord.
  rewrite Hrecord. reflexivity.
Defined.

(** X7. Whatever the server answers, a lock or unlock action completes
    without throwing, makes exactly one request, and leaves the session
    and the controller's model reference as they were. *)
Theorem actions_complete_with_one_request (h : Host) (w : World) :
  fst (lockTask h w) = Normal tt /\
  List.filter Navigation.is_fetch (new_events w (snd (lockTask h w))) =
    [Ajax (lock_request h w)] /\
  session_state (snd (lockTask h w)) = session_state w /\
  fst (unlockTask h w) = Normal tt /\
  List.filter Navigation.is_fetch (new_events w (snd (unlockTask h w))) =
    [Ajax (unlock_request w)] /\
  session_state (snd (unlockTask h w)) = session_state w.
Proof.
  assert (Hlock :
    fst (lockTask h w) = Normal tt /\
    List.filter Navigation.is_fetch (new_events w (snd (lockTask h w))) =
      [Ajax (lock_request h w)] /\
    session_state (snd (lockTask h w)) = session_state w).
  { unfold lock_request. run_task.
    destruct (user_endpoint h _) as [user|e]; run_task; project;
      (split; [reflexivity|]); (split; [|reflexivity]);
      match goal with
      | |- List.filter _ (new_events _ ?w') = _ =>
          rewrite (new_events_app w w' _
                     ltac:(project; rewrite <- !app_assoc; reflexivity))
      end; reflexivity. }
  assert (Hunlock :
    fst (unlockTask h w) = Normal tt /\
    List.filter Navigation.is_fetch (new_events w (snd (unlockTask h w))) =
      [Ajax (unlock_request w)] /\
    session_state (snd (unlockTask h w)) = session_state w).
  { unfold unlock_request. run_task.
    destruct (user_endpoint h _) as [user|e]; run_task; project;
      (split; [reflexivity|]); (split; [|reflexivity]);
      match goal with
      | |- List.filter _ (new_events _ ?w') = _ =>
          rewrite (new_events_app w w' _
                     ltac:(project; rewrite <- !app_assoc; reflexivity))
      end; reflexivity. }
  destruct Hlock as (? & ? & ?). destruct Hunlock as (? & ? & ?).
  repeat split; assumption.
Qed.

End ActionsEndToEnd.

Section SharedRecord.
Import App Services Profile.

Ltac run_task :=
  cbv beta iota delta
    [lockTask unlockTask lockTaskWith unlockTaskWith store_normalize takes_all
     try_catch bind read ask await throw ajax store_push reset
     notifications_success notifications_error sentry_captureException
     console_error emit modify ret fst snd].

Ltac project :=
  cbn [fst snd log days reason store model_user authenticated isAdmin
       savedTransition set_log set_fields set_store set_savedTransition].

(** X8. After a successful lock or unlock the profile reads the lock the
    server returned: when the answer is about the controller's user and
    carries a lock attribute, [lockReason] and [lockedUntil] are that
    lock's reason and until; an answer about another user leaves the
    profile's record as it was. *)
Theorem profile_reads_returned_lock (h : Host) (w : World) (user : Resource) :
  (user_endpoint h (lock_request h w) = Normal user ->
     (forall l, r_id user = model_user w -> a_lock (r_attrs user) = Some l ->
        lockReason (snd (lockTask h w)) = Js.opt_get l "reason" /\
        lockedUntil (snd (lockTask h w)) = Js.opt_get l "until") /\
     (r_id user <> model_user w ->
        model_user_record (snd (lockTask h w)) = model_user_record w)) /\
  (user_endpoint h (unlock_request w) = Normal user ->
     (forall l, r_id user = model_user w -> a_lock (r_attrs user) = Some l ->
        lockReason (snd (unlockTask h w)) = Js.opt_get l "reason" /\
        lockedUntil (snd (unlockTask h w)) = Js.opt_get l "until") /\
     (r_id user <> model_user w ->
        model_user_record (snd (unlockTask h w)) = model_user_record w)).
Proof.
  split.
  - intros Hok. unfold lock_request in Hok.
    unfold lockReason, lockedUntil, model_user_record.
    run_task. rewrite Hok. run_task. project. split.
    + intros l Hid Hlock. rewrite Hid, lookup_insert_eq.
      cbn [default]. unfold merge. cbn [lock]. rewrite Hlock.
      split; reflexivity.
    + intros Hne. rewrite lookup_insert_ne by exact Hne. reflexivity.
  - intros Hok. unfold unlock_request in Hok.
    unfold lockReason, lockedUntil, model_user_record.
    run_task. rewrite Hok. run_task. project. split.
    + intros l Hid Hlock. rewrite Hid, lookup_insert_eq.
      cbn [default]. unfold merge. cbn [lock]. rewrite Hlock.
      split; reflexivity.
    + intros Hne. rewrite lookup_insert_ne by exact Hne. reflexivity.
Qed.

Lemma profile_reads_returned_lock_witness :
  lockReason (snd (lockTask
    (Sample.host 1000 (Normal (Sample.resource (Sample.locked "abuse" Js.VNull))))
    (Sample.world "3" "abuse" Js.VNull true)))
  = Js.VStr "abuse".
Proof.
  apply (proj1 (proj1 (profile_reads_returned_lock
    (Sample.host 1000 (Normal (Sample.resource (Sample.locked "abuse" Js.VNull))))
    (Sample.world "3" "abuse" Js.VNull true)
    (Sample.resource (Sample.locked "abuse" Js.VNull))) eq_refl)
    (Sample.locked "abuse" Js.VNull) eq_refl eq_refl).
Defined.

(** X9. The form does not remember: once the request of a lock or unlock
    has succeeded, whatever had been typed, the next payload carries the
    default contact message and asks for the same local time seven days
    after it is built (604 800 000 ms later where the clocks do not
    change). *)
Theorem payload_after_success_is_default
    (faults : Resource -> option Error) (h h' : Host) (w : World) (user : Resource) :
  (user_endpoint h (lock_request h w) = Normal user ->
     asPayload h' (snd (lockTaskWith faults h w)) =
       {| p_reason := "Please contact help@crates.io.";
          p_until :=
            Js.VDate
              (if Z.abs (Js.UTC (zone h')
                           (Js.LocalTime (zone h') (clock h') + 604800000))
                    <=? 8640000000000000
               then Some (Js.UTC (zone h')
                            (Js.LocalTime (zone h') (clock h') + 604800000))
               else None) |}) /\
  (user_endpoint h (unlock_request w) = Normal user ->
     asPayload h' (snd (unlockTaskWith faults h w)) =
       {| p_reason := "Please contact help@crates.io.";
          p_until :=
            Js.VDate
              (if Z.abs (Js.UTC (zone h')
                           (Js.LocalTime (zone h') (clock h') + 604800000))
                    <=? 8640000000000000
               then Some (Js.UTC (zone h')
                            (Js.LocalTime (zone h') (clock h') + 604800000))
               else None) |}) /\
  (forall offset, zone h' = Js.fixed_zone offset ->
     Js.UTC (zone h') (Js.LocalTime (zone h') (clock h') + 604800000)
     = clock h' + 604800000).
Proof.
  assert (Hdefault : forall w0, days w0 = "7" ->
            reason w0 = "Please contact help@crates.io." ->
            asPayload h' w0 =
              {| p_reason := "Please contact help@crates.io.";
                 p_until :=
                   Js.VDate
                     (if Z.abs (Js.UTC (zone h')
                                  (Js.LocalTime (zone h') (clock h') + 604800000))
                           <=? 8640000000000000
                      then Some (Js.UTC (zone h')
                                   (Js.LocalTime (zone h') (clock h') + 604800000))
                      else None) |}).
  { intros w0 Hd Hr.
    assert (Hnum : Js.StringToNumber (days w0) = Js.Fin 7 0)
      by (rewrite Hd; vm_compute; reflexivity).
    assert (Huntil := until_of_number h' w0 7 0 Hnum).
    change (Js.truncate 7 0) with 7 in Huntil.
    change (7 =? 0) with false in Huntil. cbv iota in Huntil.
    change (7 * 86400000) with 604800000 in Huntil.
    rewrite <- Huntil. unfold asPayload. cbn [p_until]. rewrite Hr.
    reflexivity. }
  split; [|split].
  - intros Hok. unfold lock_request in Hok. apply Hdefault;
      run_task; rewrite Hok; run_task; destruct (faults user); reflexivity.
  - intros Hok. unfold unlock_request in Hok. apply Hdefault;
      run_task; rewrite Hok; run_task; destruct (faults user); reflexivity.
  - intros offset ->. apply fixed_zone_round_trip.
Qed.

Lemma payload_after_success_is_default_witness :
  asPayload (Sample.host 5000 (Throw Sample.ghost))
    (snd (lockTask
      (Sample.host 1000 (Normal (Sample.resource (Sample.locked "abuse" Js.VNull))))
      (Sample.world "3" "abuse" Js.VNull true)))
  = {| p_reason := "Please contact help@crates.io.";
       p_until := Js.VDate (Some (5000 + 604800000)) |}.
Proof.
  unfold lockTask.
  rewrite (proj1 (payload_after_success_is_default Services.takes_all
    (Sample.host 1000 (Normal (Sample.resource (Sample.locked "abuse" Js.VNull))))
    (Sample.host 5000 (Throw Sample.ghost))
    (Sample.world "3" "abuse" Js.VNull true)
    (Sample.resource (Sample.locked "abuse" Js.VNull))) eq_refl).
  vm_compute. reflexivity.
Defined.

End SharedRecord.

(* ===================================================================== *)
(** ** The user model, beyond the patches *)
(* ===================================================================== *)

Section ModelActions.
Import App Services UserModel.

Ltac run_action :=
  cbv beta iota delta
    [changeEmail updatePublishNotifications resendVerificationEmail stats
     apiAction bind ask await store_push emit modify ret fst snd].

Ltac project :=
  cbn [fst snd log days reason store model_user authenticated isAdmin
       savedTransition set_log set_fields set_store set_savedTransition].

(** X10. When the server rejects a request of the user model, the error
    reaches the caller and nothing is patched: the one request is all
    that happened.  This holds for [changeEmail],
    [updatePublishNotifications], [stats] and [resendVerificationEmail]. *)
Theorem rejected_action_reaches_caller
    (h : Host) (w : World) (self : string) (e : Error) :
  (forall email,
     user_action h self "PUT" None (Some (email_data email)) = Throw e ->
     changeEmail self email h w =
       (Throw e,
        set_log (log w ++ [ApiAction self "PUT" None (Some (email_data email))]) w)) /\
  (forall enabled,
     user_action h self "PUT" None (Some (notifications_data enabled)) = Throw e ->
     updatePublishNotifications self enabled h w =
       (Throw e,
        set_log (log w ++ [ApiAction self "PUT" None
                             (Some (notifications_data enabled))]) w)) /\
  (user_action h self "GET" (Some "stats") None = Throw e ->
     stats self h w =
       (Throw e, set_log (log w ++ [ApiAction self "GET" (Some "stats") None]) w)) /\
  (user_action h self "PUT" (Some "resend") None = Throw e ->
     resendVerificationEmail self h w =
       (Throw e, set_log (log w ++ [ApiAction self "PUT" (Some "resend") None]) w)).
Proof.
  split; [|split; [|split]].
  - intros email Hfail. unfold email_data in Hfail |- *. run_action.
    rewrite Hfail. reflexivity.
  - intros enabled Hfail. unfold notifications_data in Hfail |- *. run_action.
    rewrite Hfail. reflexivity.
  - intros Hfail. run_action. rewrite Hfail. reflexivity.
  - intros Hfail. run_action. rewrite Hfail. reflexivity.
Qed.

Lemma rejected_action_reaches_caller_witness :
  fst (changeEmail "42" "kate@new.example" (Fixtures.failing 1000 (HttpError (Some 500)))
         (Sample.world "7" "" Js.VNull true))
  = Throw (HttpError (Some 500)).
Proof.
  rewrite (proj1 (rejected_action_reaches_caller
                    (Fixtures.failing 1000 (HttpError (Some 500)))
                    (Sample.world "7" "" Js.VNull true) "42"
                    (HttpError (Some 500)))
             "kate@new.example" eq_refl).
  reflexivity.
Defined.

(** X11. Changing the email and toggling the publish notifications touch
    different fields, so when both requests succeed the order does not
    matter: either way the cache ends the same, the record carrying both
    changes. *)
Theorem email_and_notifications_commute
    (h : Host) (w : World) (self email : string) (enabled : bool)
    (out1 out2 : Js.Val) :
  user_action h self "PUT" None (Some (email_data email)) = Normal out1 ->
  user_action h self "PUT" None (Some (notifications_data enabled)) = Normal out2 ->
  let first_email :=
    bind (changeEmail self email)
         (fun _ => updatePublishNotifications self enabled) h w in
  let first_flag :=
    bind (updatePublishNotifications self enabled)
         (fun _ => changeEmail self email) h w in
  fst first_email = Normal tt /\
  fst first_flag = Normal tt /\
  store (snd first_email) = store (snd first_flag) /\
  store (snd first_email) !! self =
    Some {| email := Js.VStr email;
            email_verified := Js.VBool false;
            email_verification_sent := Js.VBool true;
            name := name (record self w); is_admin := is_admin (record self w);
            login := login (record self w); avatar := avatar (record self w);
            url_ := url_ (record self w); kind := kind (record self w);
            publish_notifications := Js.VBool enabled;
            lock := lock (record self w) |}.
Proof.
  intros Hemail Hflag. unfold email_data in Hemail.
  unfold notifications_data in Hflag.
  cbv zeta. run_action. rewrite Hemail, Hflag. run_action. project.
  rewrite !lookup_insert_eq. cbn [default]. rewrite !insert_insert_eq.
  unfold merge, record, upd. cbn.
  repeat split.
Qed.

Lemma email_and_notifications_commute_witness :
  fst (bind (changeEmail "42" "kate@new.example")
            (fun _ => updatePublishNotifications "42" false)
         (Sample.host 1000 (Throw Sample.ghost))
         (Sample.world "7" "" Js.VNull true))
  = Normal tt.
Proof.
  apply (email_and_notifications_commute
           (Sample.host 1000 (Throw Sample.ghost))
           (Sample.world "7" "" Js.VNull true)
           "42" "kate@new.example" false Js.VUndefined Js.VUndefined);
    reflexivity.
Defined.

End ModelActions.

(* ===================================================================== *)
(** ** The routes, beyond the failures *)
(* ===================================================================== *)

Section RoutesEndToEnd.
Import App Services.

Ltac run_hook :=
  cbv beta iota zeta delta
    [AdminUserRoute.model AdminUserRoute.modelWith store_normalize takes_all
     AdminUserCratesRoute.model AdminRoute.beforeModel
     AuthenticatedRoute.beforeModel Navigation.hook_then
     try_catch bind read ask await throw ajax store_push store_query
     replaceWith undeclared emit modify ret fst snd].

Ltac project :=
  cbn [fst snd log days reason store model_user authenticated isAdmin
       savedTransition set_log set_fields set_store set_savedTransition].

Lemma new_events_of (w w' : World) (l : list Event) :
  log w' = (log w ++ l)%list -> new_events w w' = l.
Proof. intros Heq. unfold new_events. rewrite Heq. apply drop_app_length. Qed.

Lemma assoc_set_param_eq (k : string) (v : Js.Val) (ps : list (string * Js.Val)) :
  Js.assoc k (AdminUserCratesRoute.set_param k v ps) = Some v.
Proof.
  induction ps as [|[k0 v0] r IH]; simpl.
  - rewrite String.eqb_refl. reflexivity.
  - destruct (String.eqb k k0) eqn:Hk; simpl.
    + rewrite String.eqb_refl. reflexivity.
    + rewrite Hk. exact IH.
Qed.

Lemma assoc_set_param_ne (k k' : string) (v : Js.Val) (ps : list (string * Js.Val)) :
  k' <> k ->
  Js.assoc k' (AdminUserCratesRoute.set_param k v ps) = Js.assoc k' ps.
Proof.
  intros Hne. apply String.eqb_neq in Hne.
  induction ps as [|[k0 v0] r IH]; simpl.
  - rewrite Hne. reflexivity.
  - destruct (String.eqb k k0) eqn:Hk; simpl.
    + apply String.eqb_eq in Hk. subst k0. rewrite Hne. reflexivity.
    + rewrite IH. reflexivity.
Qed.

(** X12. When the admin fetch of a user succeeds (the request is
    answered and the store takes the answer), the route makes that one
    request, merges the answer into the cache (the record of the returned
    id takes every attribute the answer carries and keeps the others;
    other records stay as they were), issues no redirect and resolves to
    the cached user. *)
Theorem admin_user_fetch_success
    (faults : Resource -> option Error) (h : Host) (w : World)
    (user_id : string) (t : Transition) (user : Resource) :
  user_endpoint h (admin_request user_id) = Normal user ->
  faults user = None ->
  let r := AdminUserRoute.modelWith faults user_id t h w in
  let old := record (r_id user) w in
  fst r = Normal (Some (r_id user)) /\
  new_events w (snd r) =
    [Ajax {| url := "/api/v1/users/" ++ user_id ++ "/admin";
             method := "GET"; body := None; headers := [] |};
     StorePush user] /\
  store (snd r) !! r_id user =
    Some {| email := match a_email (r_attrs user) with
                     | Some v => v | None => email old end;
            email_verified := match a_email_verified (r_attrs user) with
                              | Some v => v | None => email_verified old end;
            email_verification_sent :=
              match a_email_verification_sent (r_attrs user) with
              | Some v => v | None => email_verification_sent old end;
            name := match a_name (r_attrs user) with
                    | Some v => v | None => name old end;
            is_admin := match a_is_admin (r_attrs user) with
                        | Some v => v | None => is_admin old end;
            login := match a_login (r_attrs user) with
                     | Some v => v | None => login old end;
            avatar := match a_avatar (r_attrs user) with
                      | Some v => v | None => avatar old end;
            url_ := match a_url (r_attrs user) with
                    | Some v => v | None => url_ old end;
            kind := match a_kind (r_attrs user) with
                    | Some v => v | None => kind old end;
            publish_notifications :=
              match a_publish_notifications (r_attrs user) with
              | Some v => v | None => publish_notifications old end;
            lock := match a_lock (r_attrs user) with
                    | Some v => v | None => lock old end |} /\
  (forall other, other <> r_id user -> store (snd r) !! other = store w !! other) /\
  (days (snd r), reason (snd r), session_state (snd r)) =
    (days w, reason w, session_state w).
Proof.
  intros Hok Hfault. unfold admin_request in Hok. cbv zeta. run_hook.
  rewrite Hok. run_hook. rewrite Hfault. run_hook. project.
  split; [reflexivity|]. split.
  { apply new_events_of. project. rewrite <- !app_assoc. reflexivity. }
  split; [apply lookup_insert_eq|]. split; [|reflexivity].
  intros other Hne. apply lookup_insert_ne. congruence.
Qed.

Lemma admin_user_fetch_success_witness :
  fst (AdminUserRoute.model "kate" Sample.visit
         (Sample.host 1000 (Normal (Sample.resource Js.VNull)))
         (Sample.world "7" "" Js.VNull true))
  = Normal (Some "42")
  /\ lock <$> (store (snd (AdminUserRoute.model "kate" Sample.visit
         (Sample.host 1000 (Normal (Sample.resource (Sample.locked "spam" Js.VNull))))
         (Sample.world "7" "" Js.VNull true))) !! "42")
     = Some (Sample.locked "spam" Js.VNull).
Proof.
  split.
  - apply (admin_user_fetch_success Services.takes_all
             (Sample.host 1000 (Normal (Sample.resource Js.VNull)))
             (Sample.world "7" "" Js.VNull true) "kate" Sample.visit
             (Sample.resource Js.VNull) eq_refl eq_refl).
  - destruct (admin_user_fetch_success Services.takes_all
             (Sample.host 1000 (Normal (Sample.resource (Sample.locked "spam" Js.VNull))))
             (Sample.world "7" "" Js.VNull true) "kate" Sample.visit
             (Sample.resource (Sample.locked "spam" Js.VNull)) eq_refl eq_refl)
      as (_ & _ & Hrecord & _).
    cbv zeta in Hrecord. unfold AdminUserRoute.model.
    change (r_id (Sample.resource (Sample.locked "spam" Js.VNull))) with "42"
      in Hrecord.
    rewrite Hrecord. reflexivity.
Defined.

(** X13. Whatever the server answers, the admin.user route never throws,
    makes exactly one request and no retry, and redirects exactly when it
    resolves to undefined. *)
Theorem admin_user_model_outcomes
    (h : Host) (w : World) (user_id : string) (t : Transition) :
  let r := AdminUserRoute.model user_id t h w in
  (exists result, fst r = Normal result /\
     (result = None <->
      existsb Navigation.is_redirect (new_events w (snd r)) = true)) /\
  List.filter Navigation.is_fetch (new_events w (snd r)) =
    [Ajax (admin_request user_id)] /\
  (length (List.filter Navigation.is_redirect (new_events w (snd r))) <= 1)%nat.
Proof.
  unfold admin_request. cbv zeta. run_hook.
  destruct (user_endpoint h _) as [res|e]; run_hook.
  - project.
    match goal with
    | |- context [new_events w ?w'] =>
        rewrite (new_events_of w w' _
                   ltac:(project; rewrite <- !app_assoc; reflexivity))
    end.
    split; [|split; [reflexivity | simpl; lia]].
    exists (Some (r_id res)). split; [reflexivity|].
    simpl. split; discriminate.
  - destruct (AdminUserRoute.is_http_404 e); run_hook; project;
      match goal with
      | |- context [new_events w ?w'] =>
          rewrite (new_events_of w w' _
                     ltac:(project; rewrite <- !app_assoc; reflexivity))
      end;
      (split; [|split; [reflexivity | simpl; lia]]);
      exists None; (split; [reflexivity|]); simpl; split; reflexivity.
Qed.

(** X14. An authenticated admin passes the guard untouched: nothing is
    stored, nothing is redirected, and the hooks that follow run as if the
    guard were not there. *)
Theorem admin_passes_guard
    (h : Host) (w : World) (t : Transition) (A : Type) (rest : M (option A)) :
  authenticated w = true ->
  isAdmin w = true ->
  AdminRoute.beforeModel t h w = (Normal tt, w) /\
  Navigation.hook_then (AdminRoute.beforeModel t) rest h w = rest h w.
Proof.
  intros Hauth Hadmin.
  assert (Hguard : AdminRoute.beforeModel t h w = (Normal tt, w)).
  { run_hook. rewrite Hauth, Hadmin. reflexivity. }
  split; [exact Hguard|].
  unfold Navigation.hook_then. rewrite Hguard.
  rewrite drop_all. reflexivity.
Qed.

Lemma admin_passes_guard_witness :
  Navigation.enter_admin_user "kate" Sample.visit
    (Sample.host 1000 (Normal (Sample.resource Js.VNull)))
    (Sample.world "7" "" Js.VNull true)
  = AdminUserRoute.model "kate" Sample.visit
      (Sample.host 1000 (Normal (Sample.resource Js.VNull)))
      (Sample.world "7" "" Js.VNull true).
Proof.
  apply (admin_passes_guard
           (Sample.host 1000 (Normal (Sample.resource Js.VNull)))
           (Sample.world "7" "" Js.VNull true) Sample.visit
           string (AdminUserRoute.model "kate" Sample.visit));
    reflexivity.
Defined.

(** X15. A session that is not an admin's never reaches the hooks behind
    the guard, signed in or not: the transition is stored in the session,
    the guard's last call is its own redirect to the catch-all route, and
    no request is made. *)
Theorem non_admin_never_fetches
    (h : Host) (w : World) (t : Transition) (A : Type) (rest : M (option A)) :
  isAdmin w = false ->
  let r := Navigation.hook_then (AdminRoute.beforeModel t) rest h w in
  fst r = Normal None /\
  savedTransition (snd r) = Some t /\
  last (new_events w (snd r)) =
    Some (ReplaceWith "catch-all" (login_needed_view t)) /\
  existsb Navigation.is_fetch (new_events w (snd r)) = false.
Proof.
  intros Hadmin. cbv zeta. destruct (authenticated w) eqn:Hauth.
  - assert (Hguard : AdminRoute.beforeModel t h w =
      (Normal tt,
       set_log (log w ++ [ReplaceWith "catch-all" (login_needed_view t)])
         (set_savedTransition (Some t) w))).
    { run_hook. rewrite Hauth, Hadmin. reflexivity. }
    unfold Navigation.hook_then, new_events. rewrite Hguard. project.
    rewrite !drop_app_length. cbn [existsb Navigation.is_redirect orb].
    project. rewrite !drop_app_length. repeat split; reflexivity.
  - assert (Hguard : AdminRoute.beforeModel t h w =
      (Normal tt,
       set_log (log w ++ [BaseGuardRedirect t;
                          ReplaceWith "catch-all" (login_needed_view t)])
         (set_savedTransition (Some t) w))).
    { run_hook. rewrite Hauth. project. rewrite Hadmin.
      unfold set_log, set_savedTransition. cbn [negb]. cbv beta. project.
      rewrite <- app_assoc. reflexivity. }
    unfold Navigation.hook_then, new_events. rewrite Hguard. project.
    rewrite !drop_app_length. cbn [existsb Navigation.is_redirect orb].
    project. rewrite !drop_app_length. repeat split; reflexivity.
Qed.

Lemma non_admin_never_fetches_witness :
  fst (Navigation.enter_admin_user "kate" Sample.visit
         (Sample.host 1000 (Normal (Sample.resource Js.VNull)))
         (Fixtures.anonymous (Sample.world "7" "" Js.VNull true)))
  = Normal None.
Proof.
  apply (non_admin_never_fetches
           (Sample.host 1000 (Normal (Sample.resource Js.VNull)))
           (Fixtures.anonymous (Sample.world "7" "" Js.VNull true)) Sample.visit
           string (AdminUserRoute.model "kate" Sample.visit)).
  reflexivity.
Defined.

(** X16. Whatever query parameters the crates route is entered with, the
    query it issues first is scoped to the resolved user and includes
    yanked crates: a [user_id] or [include_yanked] among the parameters is
    overwritten, every other parameter is passed on as it came. *)
Theorem crates_query_is_scoped
    (h : Host) (w : World) (params : list (string * Js.Val)) (t : Transition) :
  let q := crates_params (model_user w) params in
  (exists rest,
     new_events w (snd (AdminUserCratesRoute.model params t h w)) =
       StoreQuery "crate" q :: rest) /\
  Js.assoc "user_id" q = Some (Js.VStr (model_user w)) /\
  Js.assoc "include_yanked" q = Some (Js.VStr "yes") /\
  (forall k, k <> "user_id" -> k <> "include_yanked" ->
     Js.assoc k q = Js.assoc k params).
Proof.
  cbv zeta. split; [|split; [|split]].
  - unfold crates_params, new_events. run_hook.
    destruct (crate_query h _) as [page|e].
    + exists []. project. apply drop_app_length.
    + destruct (AdminUserCratesRoute.is_not_found e); exists [];
        project; apply drop_app_length.
  - unfold crates_params. rewrite assoc_set_param_ne by discriminate.
    apply assoc_set_param_eq.
  - unfold crates_params. apply assoc_set_param_eq.
  - intros k Hk1 Hk2. unfold crates_params.
    rewrite assoc_set_param_ne by exact Hk2.
    apply assoc_set_param_ne. exact Hk1.
Qed.

Example crates_query_overrides_user_id :
  crates_params "42" [("user_id", Js.VStr "1"); ("page", Js.VStr "2")]
  = [("user_id", Js.VStr "42"); ("page", Js.VStr "2");
     ("include_yanked", Js.VStr "yes")].
Proof. reflexivity. Qed.

(** X17. When the crates query succeeds the route resolves to the page
    and the user, having made that one query and no redirect; the total
    the crates controller shows for the page is the server's, or 0 when
    the server gave none, and is never null or undefined. *)
Theorem crates_fetch_success
    (h : Host) (w : World) (params : list (string * Js.Val))
    (t : Transition) (page : CratePage) :
  crate_query h (crates_params (model_user w) params) = Normal page ->
  AdminUserCratesRoute.model params t h w =
    (Normal (Some (page, model_user w)),
     set_log (log w ++ [StoreQuery "crate" (crates_params (model_user w) params)]) w) /\
  AdminUserCratesController.totalItems page <> Js.VNull /\
  AdminUserCratesController.totalItems page <> Js.VUndefined /\
  (meta_total page <> Js.VNull -> meta_total page <> Js.VUndefined ->
     AdminUserCratesController.totalItems page = meta_total page) /\
  (meta_total page = Js.VNull \/ meta_total page = Js.VUndefined ->
     AdminUserCratesController.totalItems page = Js.VNum (Js.Fin 0 0)).
Proof.
  intros Hok. split.
  { unfold crates_params in Hok |- *. run_hook. rewrite Hok. reflexivity. }
  unfold AdminUserCratesController.totalItems, AdminUserCratesController.coalesce.
  destruct (meta_total page); repeat split;
    try discriminate; try congruence; try reflexivity;
    intros [Heq | Heq]; discriminate.
Qed.

Lemma crates_fetch_success_witness :
  fst (AdminUserCratesRoute.model [("page", Js.VStr "1")] Sample.visit
         (Fixtures.listing 1000 Fixtures.two_crates)
         (Sample.world "7" "" Js.VNull true))
  = Normal (Some (Fixtures.two_crates, "42")).
Proof.
  rewrite (proj1 (crates_fetch_success
                    (Fixtures.listing 1000 Fixtures.two_crates)
                    (Sample.world "7" "" Js.VNull true)
                    [("page", Js.VStr "1")] Sample.visit Fixtures.two_crates
                    eq_refl)).
  reflexivity.
Defined.

End RoutesEndToEnd.
